(** * Storefront order classification, cart pricing and shipping estimates

    Shallow embedding of the client-side derivations of the storefront:
    - [loadOrders] of the unified orders page (src/unnamed/part_001) and
      [loadPendingOrders] of src/src/pages/PendingPaymentsPage.tsx;
    - the two [cancelOrder] handlers of those pages;
    - [getTimeRemaining] (src/unnamed/part_001);
    - [getShippingDays] and [getOrderEstimatedDays]
      (src/src/pages/MyOrdersPage.tsx, src/unnamed/part_000);
    - [getPromotionalPrice] and [getPromotionLabel] (src/unnamed/part_000);
    - the cart store's [addItem] and [total], whose source (stores/cartStore)
      is not part of the sources and is modelled from the spec;
    - [toggleOrderExpansion], both [retryPayment] handlers and the pending
      order item preview (src/unnamed/part_001, PendingPaymentsPage.tsx);
    - [getTotalProductsInOrder] (src/src/pages/MyOrdersPage.tsx);
    - the client side of [loadProducts] and [renderStars]
      (src/unnamed/part_000).

    Strings are Stdlib strings, timestamps are integer milliseconds ([Z]),
    prices are rationals ([Q]); where the code computes with JS numbers the
    arithmetic is IEEE 754 double precision ([Double]). *)

From Stdlib Require Import String Ascii ZArith QArith Qround List Bool Lia.
From Stdlib Require Import Numbers.DecimalString Sorting.Permutation Lqa.
Import ListNotations.
Open Scope string_scope.

(* ------------------------------------------------------------------ *)
(** ** Orders *)

(** A row of the [orders] table, with the columns the pages read or write. *)
Record Order := mkOrder {
  o_id : string;
  o_user_id : string;
  o_status : string;
  o_payment_status : string;
  o_payment_method : string;
  o_created_at : Z;
  o_updated_at : Z
}.

(** The filter predicate of [pending] in [loadOrders]:
    [order.payment_status === 'payment_pending' ||
     (order.payment_method === 'mercadopago' && order.payment_status === 'pending')]. *)
Definition isPendingOrder (o : Order) : bool :=
  String.eqb (o_payment_status o) "payment_pending"
  || (String.eqb (o_payment_method o) "mercadopago"
      && String.eqb (o_payment_status o) "pending").

(** The filter predicate of [completed] in [loadOrders]:
    [order.payment_status !== 'payment_pending' &&
     !(order.payment_method === 'mercadopago' && order.payment_status === 'pending')]. *)
Definition isCompletedOrder (o : Order) : bool :=
  negb (String.eqb (o_payment_status o) "payment_pending")
  && negb (String.eqb (o_payment_method o) "mercadopago"
           && String.eqb (o_payment_status o) "pending").

(** [loadOrders]: the fetched rows are split into the two buckets by two
    [Array.prototype.filter] calls. *)
Definition loadOrders (orders : list Order) : list Order * list Order :=
  (filter isCompletedOrder orders, filter isPendingOrder orders).

(** [loadPendingOrders]: the query
    [.eq('user_id', user.id).eq('payment_method', 'mercadopago')
     .eq('payment_status', 'pending')]
    over the rows of the [orders] table (the backend's ordering by
    [created_at] is left to the backend). *)
Definition pendingPaymentsQuery (uid : string) (o : Order) : bool :=
  String.eqb (o_user_id o) uid
  && String.eqb (o_payment_method o) "mercadopago"
  && String.eqb (o_payment_status o) "pending".

Definition loadPendingOrders (uid : string) (table : list Order) : list Order :=
  filter (pendingPaymentsQuery uid) table.

(** The backend's [.update(fields).eq('id', orderId)]: every row whose [id]
    equals [orderId] is rewritten by [f], the others are left as they are. *)
Definition updateWhereId (orderId : string) (f : Order -> Order) (table : list Order)
  : list Order :=
  map (fun o => if String.eqb (o_id o) orderId then f o else o) table.

(** [cancelOrder] of PendingPaymentsPage:
    [.update({ status: 'cancelled', payment_status: 'failed',
               updated_at: new Date().toISOString() })]. *)
Definition cancelFields_pendingPage (now : Z) (o : Order) : Order :=
  {| o_id := o_id o; o_user_id := o_user_id o;
     o_status := "cancelled"; o_payment_status := "failed";
     o_payment_method := o_payment_method o;
     o_created_at := o_created_at o; o_updated_at := now |}.

Definition cancelOrder_pendingPage (now : Z) (orderId : string) (table : list Order)
  : list Order :=
  updateWhereId orderId (cancelFields_pendingPage now) table.

(** [cancelOrder] of the unified orders page: after the user's [confirm(...)]
    the handler issues [.update({ status: 'cancelled' })]; when the user
    declines it returns before touching the table. *)
Definition cancelFields_unifiedPage (o : Order) : Order :=
  {| o_id := o_id o; o_user_id := o_user_id o;
     o_status := "cancelled"; o_payment_status := o_payment_status o;
     o_payment_method := o_payment_method o;
     o_created_at := o_created_at o; o_updated_at := o_updated_at o |}.

Definition cancelOrder_unifiedPage (confirmed : bool) (orderId : string)
  (table : list Order) : list Order :=
  if confirmed then updateWhereId orderId cancelFields_unifiedPage table else table.

(* ------------------------------------------------------------------ *)
(** ** JavaScript values *)

(** Template-literal rendering of an integral JS number. *)
Definition Z_to_string (z : Z) : string := NilEmpty.string_of_int (Z.to_int z).

(** A JS number that may be [NaN]: [None] is [NaN]. *)
Definition JsNum := option Z.

Definition jsnum_to_string (n : JsNum) : string :=
  match n with Some z => Z_to_string z | None => "NaN" end.

(** [a || b] on numbers: [0] and [NaN] are falsy. *)
Definition jsnum_or (a b : JsNum) : JsNum :=
  match a with
  | Some z => if Z.eqb z 0 then b else a
  | None => b
  end.

(** [Math.max(a, b)]: [NaN] if either argument is [NaN]. *)
Definition jsnum_max (a b : JsNum) : JsNum :=
  match a, b with Some x, Some y => Some (Z.max x y) | _, _ => None end.

(** [Math.max(...xs)] on a non-empty array. *)
Definition jsnum_max_list (x : JsNum) (xs : list JsNum) : JsNum :=
  fold_left jsnum_max xs x.

Definition is_digit (c : ascii) : bool :=
  let n := nat_of_ascii c in Nat.leb 48 n && Nat.leb n 57.

Definition digit_value (c : ascii) : Z := Z.of_nat (nat_of_ascii c - 48).

(** White space skipped by [parseInt] (its ASCII part). *)
Definition is_js_space (c : ascii) : bool :=
  let n := nat_of_ascii c in
  Nat.eqb n 32 || (Nat.leb 9 n && Nat.leb n 13).

Fixpoint skip_space (s : string) : string :=
  match s with
  | String c t => if is_js_space c then skip_space t else s
  | EmptyString => s
  end.

(** The longest prefix of decimal digits, and the rest. *)
Fixpoint take_digits (s : string) : string * string :=
  match s with
  | String c t =>
      if is_digit c then let (d, r) := take_digits t in (String c d, r)
      else (EmptyString, s)
  | EmptyString => (EmptyString, EmptyString)
  end.

Definition digits_value (d : string) : Z :=
  fold_left (fun acc c => 10 * acc + digit_value c)%Z (list_ascii_of_string d) 0%Z.

(** [parseInt(s, 10)]: leading white space, an optional sign, then the
    longest run of decimal digits; [NaN] when there is no digit. *)
Definition parseInt10 (s : string) : JsNum :=
  let s1 := skip_space s in
  let '(sign, s2) :=
    match s1 with
    | String "-"%char t => ((-1)%Z, t)
    | String "+"%char t => (1%Z, t)
    | _ => (1%Z, s1)
    end in
  match take_digits s2 with
  | (EmptyString, _) => None
  | (d, _) => Some (sign * digits_value d)%Z
  end.

(** [s.includes(c)] for a one-character string. *)
Fixpoint includes_char (c : ascii) (s : string) : bool :=
  match s with
  | String c' t => Ascii.eqb c c' || includes_char c t
  | EmptyString => false
  end.

(** [s.split(c)] for a one-character separator. *)
Fixpoint split_char (c : ascii) (s : string) : list string :=
  match s with
  | EmptyString => [EmptyString]
  | String c' t =>
      if Ascii.eqb c c' then EmptyString :: split_char c t
      else match split_char c t with
           | p :: ps => String c' p :: ps
           | [] => [String c' EmptyString]
           end
  end.

(** Truthiness of an optional string field: present and non-empty. *)
Definition str_truthy (s : option string) : option string :=
  match s with Some (String _ _ as t) => Some t | _ => None end.

(** [Math.round]: the nearest integer, halves rounded up. *)
Definition js_round (q : Q) : Z := Qfloor (q + (1 # 2))%Q.

(* ------------------------------------------------------------------ *)
(** ** Double-precision numbers *)

(** A JS number as an IEEE 754 binary64 value: a signed zero, a non-zero
    finite value held as its exact rational value, a signed infinity, or
    [NaN]. *)
Inductive Double :=
  | DZero (neg : bool)
  | DFin (v : Q)
  | DInf (neg : bool)
  | DNaN.

(** [2^e] and [10^e] as rationals, for any integer [e]. *)
Definition pow2 (e : Z) : Q :=
  if Z.leb 0 e then inject_Z (2 ^ e) else 1 # Z.to_pos (2 ^ (- e)).

Definition pow10 (e : Z) : Q :=
  if Z.leb 0 e then inject_Z (10 ^ e) else 1 # Z.to_pos (10 ^ (- e)).

(** [floor(log2(a / b))] for positive [a] and [b]. *)
Definition floor_log2 (a b : Z) : Z :=
  let k := (Z.log2 a - Z.log2 b)%Z in
  if Z.leb 0 k then (if Z.leb (b * 2 ^ k) a then k else k - 1)%Z
  else (if Z.leb b (a * 2 ^ (- k)) then k else k - 1)%Z.

(** [a / b] rounded to the nearest integer, ties to even ([a >= 0], [b > 0]). *)
Definition round_ne (a b : Z) : Z :=
  let q := (a / b)%Z in
  match Z.compare (2 * (a mod b)) b with
  | Lt => q
  | Gt => (q + 1)%Z
  | Eq => if Z.even q then q else (q + 1)%Z
  end.

(** Rounding of an exact rational result to binary64, to nearest with ties to
    even: 53 significant bits, subnormals down to [2^-1074], a zero keeping
    the sign of the exact value when it underflows, an infinity when the
    rounded value reaches [2^1024]. *)
Definition round64 (x : Q) : Double :=
  let a := Z.abs (Qnum x) in
  let b := Zpos (Qden x) in
  let neg := Z.ltb (Qnum x) 0 in
  if Z.eqb a 0 then DZero false
  else
    let qe := Z.max (floor_log2 a b - 52) (-1074) in
    let n := if Z.leb 0 qe then round_ne a (b * 2 ^ qe) else round_ne (a * 2 ^ (- qe)) b in
    if Z.eqb n 0 then DZero neg
    else if Z.leb (1024 - qe) (Z.log2 n) then DInf neg
    else DFin (inject_Z (if neg then - n else n) * pow2 qe)%Q.

(** The JS number of a numeric column value or a numeric literal: the nearest
    double, as [JSON.parse] and the source text give it. *)
Definition js_number (q : Q) : Double := round64 q.

(** Truthiness of a JS number: [0], [-0] and [NaN] are falsy. *)
Definition double_truthy (x : Double) : bool :=
  match x with DZero _ | DNaN => false | _ => true end.

Definition dneg (x : Double) : Double :=
  match x with
  | DZero s => DZero (negb s)
  | DFin v => DFin (- v)
  | DInf s => DInf (negb s)
  | DNaN => DNaN
  end.

Definition dsign (x : Double) : bool :=
  match x with DZero s | DInf s => s | DFin v => Z.ltb (Qnum v) 0 | DNaN => false end.

(** [x + y]. *)
Definition dadd (x y : Double) : Double :=
  match x, y with
  | DNaN, _ | _, DNaN => DNaN
  | DInf s, DInf t => if Bool.eqb s t then DInf s else DNaN
  | DInf s, _ => DInf s
  | _, DInf t => DInf t
  | DZero s, DZero t => DZero (s && t)
  | DZero _, _ => y
  | _, DZero _ => x
  | DFin u, DFin v => if Qeq_bool (u + v) 0 then DZero false else round64 (u + v)
  end.

(** [x - y]. *)
Definition dsub (x y : Double) : Double := dadd x (dneg y).

(** [x * y]. *)
Definition dmul (x y : Double) : Double :=
  match x, y with
  | DNaN, _ | _, DNaN => DNaN
  | DInf _, DZero _ | DZero _, DInf _ => DNaN
  | DInf _, _ | _, DInf _ => DInf (xorb (dsign x) (dsign y))
  | DZero _, _ | _, DZero _ => DZero (xorb (dsign x) (dsign y))
  | DFin u, DFin v => round64 (u * v)
  end.

(** [x / y]. *)
Definition ddiv (x y : Double) : Double :=
  match x, y with
  | DNaN, _ | _, DNaN => DNaN
  | DInf _, DInf _ | DZero _, DZero _ => DNaN
  | DInf _, _ => DInf (xorb (dsign x) (dsign y))
  | _, DInf _ => DZero (xorb (dsign x) (dsign y))
  | DZero _, _ => DZero (xorb (dsign x) (dsign y))
  | _, DZero _ => DInf (xorb (dsign x) (dsign y))
  | DFin u, DFin v => round64 (u / v)
  end.

(** [Math.round(x)]: the nearest integer, halves towards [+Infinity], [-0]
    for [-0.5 <= x < 0], [NaN], infinities and zeros unchanged. *)
Definition math_round (x : Double) : Double :=
  match x with
  | DFin v =>
      let z := Qfloor (v + (1 # 2))%Q in
      if Z.eqb z 0 then DZero (Z.ltb (Qnum v) 0) else DFin (inject_Z z)
  | _ => x
  end.

(** [Number::toString]: the shortest digit string [s] (with [k] digits and
    decimal exponent [n]) whose value [s * 10^(n-k)] rounds back to the
    number, the closest such one, the even one on a tie. *)
Definition same_value (x : Double) (v : Q) : bool :=
  match x with DFin w => Qeq_bool w v | _ => false end.

Definition zdigits (a : Z) : Z := Z.of_nat (String.length (Z_to_string a)).

(** The [n] with [10^(n-1) <= v < 10^n], for [v > 0]. *)
Definition decimal_exponent (v : Q) : Z :=
  let n0 := (zdigits (Qnum v) - zdigits (Zpos (Qden v)))%Z in
  if Qle_bool (pow10 n0) v then (n0 + 1)%Z else n0.

(** The best significand [c] with [c * 10^p] reading back as [v], if any:
    the digits below and above [v] are the only candidates. *)
Definition pick_digits (v : Q) (p : Z) : option Z :=
  let w := (v / pow10 p)%Q in
  let lo := Qfloor w in
  let hi := Qceiling w in
  let ok c := same_value (round64 (inject_Z c * pow10 p)) v in
  match ok lo, ok hi with
  | true, true =>
      match Qcompare (v - inject_Z lo * pow10 p) (inject_Z hi * pow10 p - v) with
      | Lt => Some lo
      | Gt => Some hi
      | Eq => if Z.even lo then Some lo else Some hi
      end
  | true, false => Some lo
  | false, true => Some hi
  | false, false => None
  end.

(** Trying [k = 1, 2, ...] digits; 17 digits always read back, the fuel is
    never exhausted on a double. *)
Fixpoint shortest_digits (fuel : nat) (v : Q) (n k : Z) : Z * Z :=
  match fuel with
  | O => (Qfloor (v / pow10 (n - k)), (n - k)%Z)
  | S f =>
      match pick_digits v (n - k) with
      | Some c => (c, (n - k)%Z)
      | None => shortest_digits f v n (k + 1)
      end
  end.

Fixpoint strip_zeros (fuel : nat) (c p : Z) : Z * Z :=
  match fuel with
  | O => (c, p)
  | S f => if Z.eqb (c mod 10) 0 then strip_zeros f (c / 10) (p + 1) else (c, p)
  end.

Fixpoint zeros (n : nat) : string :=
  match n with O => "" | S m => String "0" (zeros m) end.

(** [Number::toString] of a positive finite value: plain digits up to
    [10^21], a decimal point inside or after ["0."] down to [10^-6], and
    exponential notation otherwise. *)
Definition pos_to_string (v : Q) : string :=
  let '(c0, p0) := shortest_digits 20 v (decimal_exponent v) 1 in
  let '(s, p) := strip_zeros 20 c0 p0 in
  let ds := Z_to_string s in
  let k := Z.of_nat (String.length ds) in
  let n := (p + k)%Z in
  if Z.leb k n && Z.leb n 21 then ds ++ zeros (Z.to_nat (n - k))
  else if Z.ltb 0 n && Z.leb n 21 then
    substring 0 (Z.to_nat n) ds ++ "." ++ substring (Z.to_nat n) (Z.to_nat (k - n)) ds
  else if Z.ltb (-6) n && Z.leb n 0 then "0." ++ zeros (Z.to_nat (- n)) ++ ds
  else
    let e := (n - 1)%Z in
    let mant := if Z.eqb k 1 then ds
                else substring 0 1 ds ++ "." ++ substring 1 (Z.to_nat (k - 1)) ds in
    mant ++ "e" ++ (if Z.ltb e 0 then "-" else "+") ++ Z_to_string (Z.abs e).

(** [`${x}`] of a JS number. *)
Definition number_to_string (x : Double) : string :=
  match x with
  | DNaN => "NaN"
  | DZero _ => "0"
  | DInf false => "Infinity"
  | DInf true => "-Infinity"
  | DFin v => if Z.ltb (Qnum v) 0 then ("-" ++ pos_to_string (- v)) else pos_to_string v
  end.

(* ------------------------------------------------------------------ *)
(** ** Time remaining *)

Definition HOUR_MS : Z := 1000 * 60 * 60.
Definition MINUTE_MS : Z := 1000 * 60.

(** [getTimeRemaining(createdAt)], with [created.getTime()] and
    [now.getTime()] as integer milliseconds. *)
Definition getTimeRemaining (created now : Z) : string :=
  let diffMs := (48 * 60 * 60 * 1000 - (now - created))%Z in
  if Z.leb diffMs 0 then "Expirado"
  else
    let hours := (diffMs / HOUR_MS)%Z in
    let minutes := ((diffMs mod HOUR_MS) / MINUTE_MS)%Z in
    Z_to_string hours ++ "h " ++ Z_to_string minutes ++ "m restantes".

(* ------------------------------------------------------------------ *)
(** ** Products and promotions *)

Inductive PromotionType := Promo2x1 | Promo3x1 | Promo3x2 | PromoDiscount.

(** [product.promotion]: the variant tag and the optional [total_price]. *)
Record Promotion := mkPromotion {
  pr_type : PromotionType;
  pr_total_price : option Q
}.

(** A product row, with the fields the storefront reads. *)
Record Product := mkProduct {
  p_id : string;
  p_price : Q;
  p_promotion : option Promotion;
  p_shipping_days : option string;
  p_description : option string
}.

(** Truthiness of an optional numeric field: present, and its JS number
    neither [0] nor [NaN]. *)
Definition num_truthy (q : option Q) : option Q :=
  match q with
  | Some v => if double_truthy (js_number v) then Some v else None
  | None => None
  end.

(** [getPromotionalPrice(product)]. *)
Definition getPromotionalPrice (p : Product) : option Q :=
  match p_promotion p with
  | None => None
  | Some pr =>
      match pr_type pr, num_truthy (pr_total_price pr) with
      | PromoDiscount, Some tp => Some tp
      | _, _ => None
      end
  end.

(** [getPromotionLabel(product)]; the discount
    [Math.round((1 - (total_price / price)) * 100)] is evaluated in double
    precision on the JS numbers of the two columns. *)
Definition getPromotionLabel (p : Product) : option string :=
  match p_promotion p with
  | None => None
  | Some pr =>
      match pr_type pr with
      | Promo2x1 => Some "Lleva 2, paga 1"
      | Promo3x1 => Some "Lleva 3, paga 1"
      | Promo3x2 => Some "Lleva 3, paga 2"
      | PromoDiscount =>
          match num_truthy (pr_total_price pr) with
          | Some tp =>
              let discount :=
                math_round (dmul (dsub (js_number 1)
                                       (ddiv (js_number tp) (js_number (p_price p))))
                                 (js_number 100)) in
              Some (number_to_string discount ++ "% OFF")
          | None => None
          end
      end
  end.

(* ------------------------------------------------------------------ *)
(** ** Shipping days *)

Definition SHIPPING_TAG : string := "[shipping_days:".

(** [s] starts with [pre]: the rest of [s]. *)
Fixpoint strip_prefix (pre s : string) : option string :=
  match pre, s with
  | EmptyString, _ => Some s
  | String c p, String c' t => if Ascii.eqb c c' then strip_prefix p t else None
  | String _ _, EmptyString => None
  end.

(** The regular expression [/\[shipping_days:(\d+)\]/] tried at the first
    position of [s]: the tag, a greedy run of at least one digit, then [']']
    (no backtracking can help, a shorter run is followed by a digit). *)
Definition match_shipping_at (s : string) : option string :=
  match strip_prefix SHIPPING_TAG s with
  | None => None
  | Some r =>
      match take_digits r with
      | (EmptyString, _) => None
      | (d, String "]"%char _) => Some d
      | (_, _) => None
      end
  end.

(** [description.match(/\[shipping_days:(\d+)\]/)], group 1 of the leftmost match. *)
Fixpoint match_shipping (s : string) : option string :=
  match match_shipping_at s with
  | Some d => Some d
  | None => match s with String _ t => match_shipping t | EmptyString => None end
  end.

(** [getShippingDays(product)] (identical in MyOrdersPage and the product grid). *)
Definition getShippingDays (p : Product) : string :=
  match str_truthy (p_shipping_days p) with
  | Some sd => sd
  | None =>
      match str_truthy (p_description p) with
      | Some desc =>
          match match_shipping desc with
          | Some (String _ _ as d) => d
          | _ => "3-5"
          end
      | None => "3-5"
      end
  end.

(** The per-item upper bound in [getOrderEstimatedDays]. *)
Definition upperDays (days : string) : JsNum :=
  if includes_char "-" days then
    let parts := split_char "-" days in
    jsnum_or (parseInt10 (nth 1 parts EmptyString)) (parseInt10 (nth 0 parts EmptyString))
  else jsnum_or (parseInt10 days) (Some 5%Z).

(** [[...new Set(xs)]]: the distinct values in first-occurrence order. *)
Definition uniqueValues (xs : list string) : list string :=
  fold_left (fun acc x => if existsb (String.eqb x) acc then acc else (acc ++ [x])%list) xs [].

(** [getOrderEstimatedDays(order)], on the products of the order items. *)
Definition getOrderEstimatedDays (items : list Product) : string :=
  match items with
  | [] => "3-5"
  | it :: its =>
      let shippingDaysArray := map getShippingDays items in
      let maxDays := jsnum_max_list (upperDays (getShippingDays it))
                       (map upperDays (map getShippingDays its)) in
      match uniqueValues shippingDaysArray with
      | [u] => u
      | _ =>
          let lo := match maxDays with
                    | Some m => Some (Z.max 3 (m - 2))
                    | None => None
                    end in
          jsnum_to_string lo ++ "-" ++ jsnum_to_string maxDays
      end
  end.

(* ------------------------------------------------------------------ *)
(** ** Cart *)

(** A cart line: [{ product, quantity, selectedColor? }]. *)
Record CartItem := mkCartItem {
  ci_product : Product;
  ci_quantity : Z;
  ci_selectedColor : option string
}.

(** The line's key: [(product.id, selectedColor)]. *)
Definition sameLine (pid : string) (color : option string) (i : CartItem) : bool :=
  String.eqb (p_id (ci_product i)) pid
  && match ci_selectedColor i, color with
     | Some a, Some b => String.eqb a b
     | None, None => true
     | _, _ => false
     end.

(** Modelled from the spec: [addItem] of the cart store (stores/cartStore,
    not among the sources). "If a line with the same (product id,
    selectedColor) exists, increment its quantity by [quantity]; otherwise
    append a new line." *)
Definition addItem (items : list CartItem) (product : Product) (quantity : Z)
  (selectedColor : option string) : list CartItem :=
  if existsb (sameLine (p_id product) selectedColor) items then
    map (fun i => if sameLine (p_id product) selectedColor i
                  then mkCartItem (ci_product i) (ci_quantity i + quantity) (ci_selectedColor i)
                  else i) items
  else (items ++ [mkCartItem product quantity selectedColor])%list.

(** Modelled from the spec: [unitPrice] of the cart store: the promotion's
    [total_price] when the product has an active [discount] promotion, else
    the base [price]. The backend only attaches active promotions. *)
Definition unitPrice (p : Product) : Q :=
  match p_promotion p with
  | Some (mkPromotion PromoDiscount (Some tp)) => tp
  | _ => p_price p
  end.

(** Modelled from the spec: the cart store's derived [total], the sum over
    all lines of [unitPrice(line.product) * line.quantity]. *)
Definition total (items : list CartItem) : Q :=
  fold_right (fun i acc => unitPrice (ci_product i) * inject_Z (ci_quantity i) + acc)%Q 0%Q items.

(** The price Cart.tsx shows for a line (red promotional price for a
    [discount] promotion, [price * quantity] otherwise); [None] is the [NaN]
    shown when a [discount] promotion has no [total_price]. *)
Definition cartLineShown (i : CartItem) : option Q :=
  match p_promotion (ci_product i) with
  | Some pr =>
      match pr_type pr with
      | PromoDiscount =>
          match pr_total_price pr with
          | Some tp => Some (tp * inject_Z (ci_quantity i))%Q
          | None => None
          end
      | _ => Some (p_price (ci_product i) * inject_Z (ci_quantity i))%Q
      end
  | None => Some (p_price (ci_product i) * inject_Z (ci_quantity i))%Q
  end.

(** The product with a quantity-based promotion ([2x1], [3x1], [3x2])
    dropped. *)
Definition dropQuantityPromotion (p : Product) : Product :=
  match p_promotion p with
  | Some (mkPromotion PromoDiscount _) => p
  | _ => mkProduct (p_id p) (p_price p) None (p_shipping_days p) (p_description p)
  end.

Definition dropQuantityPromotions (items : list CartItem) : list CartItem :=
  map (fun i => mkCartItem (dropQuantityPromotion (ci_product i)) (ci_quantity i)
                  (ci_selectedColor i)) items.

(* ------------------------------------------------------------------ *)
(** ** Ordered sub-sequences *)

(** [sublist l1 l2]: [l1] is [l2] with some elements removed, the rest in
    their order. *)
Inductive sublist {A : Type} : list A -> list A -> Prop :=
| sublist_nil : sublist [] []
| sublist_skip x l1 l2 : sublist l1 l2 -> sublist l1 (x :: l2)
| sublist_keep x l1 l2 : sublist l1 l2 -> sublist (x :: l1) (x :: l2).

(** [d] is a non-empty run of decimal digits. *)
Definition all_digits (d : string) : bool := forallb is_digit (list_ascii_of_string d).

(** [desc] contains [[shipping_days:<d>]] after the prefix [pre], with [d]
    a non-empty run of digits: a match of [/\[shipping_days:(\d+)\]/]. *)
Definition shipping_tag_at (desc pre d : string) : Prop :=
  (exists post, desc = pre ++ SHIPPING_TAG ++ d ++ "]" ++ post)
  /\ d <> EmptyString /\ all_digits d = true.

(* ------------------------------------------------------------------ *)
(** ** Order pages: expansion, item counts, payment retry *)

(** A JS [Set<string>] as its elements in insertion order. *)
Definition StrSet := list string.

Definition set_has (s : StrSet) (x : string) : bool := existsb (String.eqb x) s.

Definition set_add (s : StrSet) (x : string) : StrSet :=
  if set_has s x then s else (s ++ [x])%list.

Definition set_delete (s : StrSet) (x : string) : StrSet :=
  filter (fun y => negb (String.eqb x y)) s.

(** [toggleOrderExpansion(orderId)] on the current [expandedOrders]: a copy
    of the set with [orderId] deleted when present and added otherwise. *)
Definition toggleOrderExpansion (expanded : StrSet) (orderId : string) : StrSet :=
  if set_has expanded orderId then set_delete expanded orderId
  else set_add expanded orderId.

(** An order item as the pages read it: [{ quantity, price_at_time,
    selected_color, products }]. *)
Record OrderItem := mkOrderItem {
  oi_quantity : Z;
  oi_price_at_time : Q;
  oi_selected_color : option string;
  oi_products : Product
}.

(** [getTotalProductsInOrder(order)] of MyOrdersPage, on [order.order_items]
    ([None] when the relation is missing). *)
Definition getTotalProductsInOrder (order_items : option (list OrderItem)) : Z :=
  match order_items with
  | None => 0%Z
  | Some items => fold_left (fun total item => total + oi_quantity item)%Z items 0%Z
  end.

(** The rows fetched by [loadOrders] of the unified page and of MyOrdersPage:
    [.eq('user_id', user.id)] (the ordering is the backend's). *)
Definition userOrdersQuery (uid : string) (table : list Order) : list Order :=
  filter (fun o => String.eqb (o_user_id o) uid) table.






(** The item preview of a pending order on the unified page:
    [order.order_items?.slice(0, 3)] and, when
    [(order.order_items?.length || 0) > 3], the text
    [+{(order.order_items?.length || 0) - 3} más]. *)
Definition pendingPreviewItems (order_items : option (list OrderItem)) : list OrderItem :=
  match order_items with Some items => firstn 3 items | None => [] end.

Definition pendingPreviewMore (order_items : option (list OrderItem)) : option string :=
  let n := match order_items with Some items => Z.of_nat (length items) | None => 0%Z end in
  if Z.ltb 3 n then Some ("+" ++ Z_to_string (n - 3) ++ " más") else None.

(* ------------------------------------------------------------------ *)
(** ** Product grid: loading products, promotions, ratings, stars *)

(** [product.allowed_payment_methods]: each flag may be missing. *)
Record PaymentMethods := mkPaymentMethods {
  pm_cash_on_delivery : option bool;
  pm_card : option bool
}.

(** A row of the [products] table as the grid keeps it, with the fields the
    grid adds ([averageRating], [reviewCount]). *)
Record GridProduct := mkGridProduct {
  gp_product : Product;
  gp_category : option string;
  gp_allowed_payment_methods : option PaymentMethods;
  gp_averageRating : option Q;
  gp_reviewCount : option Z
}.

Definition flag (b : option bool) : bool := match b with Some true => true | _ => false end.

(** The filter of [loadProducts]:
    [const methods = product.allowed_payment_methods ||
                     { cash_on_delivery: true, card: true };
     return methods.cash_on_delivery || methods.card;]. *)
Definition allowedByPaymentMethods (gp : GridProduct) : bool :=
  let methods := match gp_allowed_payment_methods gp with
                 | Some m => m
                 | None => mkPaymentMethods (Some true) (Some true)
                 end in
  flag (pm_cash_on_delivery methods) || flag (pm_card methods).

Definition gp_id (gp : GridProduct) : string := p_id (gp_product gp).

Definition setPromotion (pr : Promotion) (gp : GridProduct) : GridProduct :=
  let p := gp_product gp in
  mkGridProduct (mkProduct (p_id p) (p_price p) (Some pr) (p_shipping_days p) (p_description p))
    (gp_category gp) (gp_allowed_payment_methods gp) (gp_averageRating gp) (gp_reviewCount gp).

(** One product of the promotions step:
    [const productPromotion = promotionProducts.find(pp => pp.product_id === product.id);
     if (productPromotion && productPromotion.promotion)
       return { ...product, promotion: productPromotion.promotion };
     return product;]
    A [promotion_products] row is [(product_id, promotion)], the joined
    promotion being [None] when the join filters dropped it. *)
Definition attachPromotion (pps : list (string * option Promotion)) (gp : GridProduct)
  : GridProduct :=
  match find (fun pp => String.eqb (fst pp) (gp_id gp)) pps with
  | Some (_, Some pr) => setPromotion pr gp
  | _ => gp
  end.

(** An association list with JS-object insertion order. *)
Fixpoint assoc_get {V : Type} (k : string) (m : list (string * V)) : option V :=
  match m with
  | [] => None
  | (k', v) :: m' => if String.eqb k k' then Some v else assoc_get k m'
  end.

Fixpoint assoc_set {V : Type} (k : string) (v : V) (m : list (string * V))
  : list (string * V) :=
  match m with
  | [] => [(k, v)]
  | (k', v') :: m' => if String.eqb k k' then (k', v) :: m' else (k', v') :: assoc_set k v m'
  end.

(** One step of [reviewsData.forEach(...)]: create [{ sum: 0, count: 0 }]
    for a new [product_id], then add the rating and count it. *)
Definition addReview (acc : list (string * (Q * Z))) (review : string * Q)
  : list (string * (Q * Z)) :=
  let '(pid, rating) := review in
  let '(sum, count) := match assoc_get pid acc with
                       | Some sc => sc
                       | None => (0%Q, 0%Z)
                       end in
  assoc_set pid ((sum + rating)%Q, (count + 1)%Z) acc.

(** [reviewsByProduct], from the approved reviews [(product_id, rating)]. *)
Definition reviewsByProduct (reviews : list (string * Q)) : list (string * (Q * Z)) :=
  fold_left addReview reviews [].

(** One product of the ratings step. *)
Definition attachRating (byProduct : list (string * (Q * Z))) (gp : GridProduct)
  : GridProduct :=
  let p := gp_product gp in
  match assoc_get (gp_id gp) byProduct with
  | Some (sum, count) =>
      mkGridProduct p (gp_category gp) (gp_allowed_payment_methods gp)
        (Some (sum / inject_Z count)%Q) (Some count)
  | None =>
      mkGridProduct p (gp_category gp) (gp_allowed_payment_methods gp) (Some 0%Q) (Some 0%Z)
  end.

(** Truthy categories: present and non-empty. *)
Definition truthyCategory (gp : GridProduct) : list string :=
  match str_truthy (gp_category gp) with Some c => [c] | None => [] end.

(** The client side of [loadProducts] once the [products] query returned
    [data]: the payment-method filter, the promotions step ([promos] is
    [None] when that query failed), the ratings step ([reviews] is [None]
    when that query failed), and
    [Array.from(new Set(data.map(p => p.category).filter(Boolean)))]. *)
Definition loadProducts_client (data : list GridProduct)
  (promos : option (list (string * option Promotion)))
  (reviews : option (list (string * Q))) : list GridProduct * list string :=
  let filteredProducts := filter allowedByPaymentMethods data in
  let withPromotions := match promos with
                        | Some pps => map (attachPromotion pps) filteredProducts
                        | None => filteredProducts
                        end in
  let withRatings := match reviews with
                     | Some rs => map (attachRating (reviewsByProduct rs)) withPromotions
                     | None => withPromotions
                     end in
  (withRatings, uniqueValues (flat_map truthyCategory data)).

(** [renderStars(rating)]: the stars [1..5] drawn filled
    ([star <= Math.round(rating)]). *)
Definition filledStars (rating : Q) : list Z :=
  filter (fun star => Z.leb star (js_round rating)) [1; 2; 3; 4; 5]%Z.

(** One step of [uniqueValues]. *)
Definition uniqueStep (acc : list string) (x : string) : list string :=
  if existsb (String.eqb x) acc then acc else (acc ++ [x])%list.




(* ================================================================== *)
(** * Properties *)

(* ------------------------------------------------------------------ *)
(** ** Helper lemmas *)

Lemma filter_sublist {A : Type} (f : A -> bool) (l : list A) :
  sublist (filter f l) l.
Proof.
  induction l as [|x l IH]; simpl.
  - constructor.
  - destruct (f x); constructor; exact IH.
Qed.

Lemma filter_negb_perm {A : Type} (f : A -> bool) (l : list A) :
  Permutation (filter (fun x => negb (f x)) l ++ filter f l) l.
Proof.
  induction l as [|x l IH]; simpl; [constructor|].
  destruct (f x); simpl.
  - apply Permutation_sym, Permutation_cons_app, Permutation_sym, IH.
  - constructor; exact IH.
Qed.

Lemma isCompletedOrder_negb (o : Order) :
  isCompletedOrder o = negb (isPendingOrder o).
Proof.
  unfold isCompletedOrder, isPendingOrder.
  now rewrite negb_orb.
Qed.

Lemma loadOrders_fst (orders : list Order) :
  fst (loadOrders orders) = filter (fun o => negb (isPendingOrder o)) orders.
Proof.
  unfold loadOrders; simpl. apply filter_ext, isCompletedOrder_negb.
Qed.

Lemma isPendingOrder_spec (o : Order) :
  isPendingOrder o = true <->
  o_payment_status o = "payment_pending"
  \/ (o_payment_status o = "pending" /\ o_payment_method o = "mercadopago").
Proof.
  unfold isPendingOrder.
  rewrite orb_true_iff, andb_true_iff, !String.eqb_eq. tauto.
Qed.

(* ------------------------------------------------------------------ *)
(** ** C1 *)

(** C1 (counterexample): in the unified orders page an order with
    [payment_status = 'payment_pending'] paid cash on delivery lands in the
    pending bucket, although it is not [pending] and [mercadopago]. *)
Lemma C1_counterexample :
  ~ (forall (orders : list Order) (o : Order), In o orders ->
       (In o (snd (loadOrders orders)) <->
        o_payment_status o = "pending" /\ o_payment_method o = "mercadopago")).
Proof.
  intros H.
  set (o := mkOrder "o1" "u1" "pending" "payment_pending" "cash_on_delivery" 0 0).
  specialize (H [o] o (or_introl eq_refl)).
  assert (Hin : In o (snd (loadOrders [o]))) by (left; reflexivity).
  apply H in Hin. destruct Hin as [Hs _]. discriminate Hs.
Qed.

(** C1 (amended): the unified page classifies an order as payment-pending
    iff [payment_status = 'payment_pending'] or ([payment_status = 'pending']
    and [payment_method = 'mercadopago']); a cash-on-delivery order with
    [payment_status = 'pending'] is in the completed bucket and not in the
    pending one; PendingPaymentsPage lists exactly the user's orders with
    [payment_status = 'pending'] and [payment_method = 'mercadopago']. *)
Theorem C1_classification (orders : list Order) (o : Order) (uid : string)
  (Hin : In o orders) :
  (In o (snd (loadOrders orders)) <->
     o_payment_status o = "payment_pending"
     \/ (o_payment_status o = "pending" /\ o_payment_method o = "mercadopago"))
  /\ (o_payment_method o = "cash_on_delivery" -> o_payment_status o = "pending" ->
      In o (fst (loadOrders orders)) /\ ~ In o (snd (loadOrders orders)))
  /\ (In o (loadPendingOrders uid orders) <->
      o_user_id o = uid /\ o_payment_status o = "pending"
      /\ o_payment_method o = "mercadopago").
Proof.
  unfold loadPendingOrders. simpl snd. rewrite loadOrders_fst.
  split; [|split].
  - rewrite filter_In, <- isPendingOrder_spec. tauto.
  - intros Hm Hs.
    assert (Hp : isPendingOrder o = false).
    { unfold isPendingOrder. rewrite Hm, Hs. reflexivity. }
    rewrite !filter_In, Hp. split; [tauto | intros [_ F]; discriminate F].
  - rewrite filter_In. unfold pendingPaymentsQuery.
    rewrite !andb_true_iff, !String.eqb_eq. tauto.
Qed.

Lemma C1_classification_witness :
  let o := mkOrder "o1" "u1" "pending" "pending" "cash_on_delivery" 0 0 in
  In o [o] /\ In o (fst (loadOrders [o])) /\ ~ In o (snd (loadOrders [o])).
Proof.
  intros o.
  assert (Hin : In o [o]) by (left; reflexivity).
  split; [exact Hin|].
  destruct (C1_classification [o] o "u1" Hin) as [_ [H _]].
  apply H; reflexivity.
Defined.

(* ------------------------------------------------------------------ *)
(** ** C2 *)

(** C2: [loadOrders] partitions its input: the two buckets together are a
    permutation of the input (every occurrence lands in exactly one bucket),
    no order is in both buckets, and each bucket keeps the input order. *)
Theorem C2_loadOrders_partition (orders : list Order) :
  Permutation (fst (loadOrders orders) ++ snd (loadOrders orders)) orders
  /\ (forall o, In o orders ->
        (In o (fst (loadOrders orders)) <-> ~ In o (snd (loadOrders orders))))
  /\ sublist (fst (loadOrders orders)) orders
  /\ sublist (snd (loadOrders orders)) orders.
Proof.
  rewrite loadOrders_fst. simpl snd.
  split; [apply filter_negb_perm|split; [|split; apply filter_sublist]].
  intros o Hin. rewrite !filter_In.
  destruct (isPendingOrder o); simpl; split; intuition discriminate.
Qed.

Lemma C2_loadOrders_partition_witness :
  let o1 := mkOrder "o1" "u1" "pending" "pending" "mercadopago" 0 0 in
  let o2 := mkOrder "o2" "u1" "pending" "pending" "cash_on_delivery" 0 0 in
  In o2 (fst (loadOrders [o1; o2])) <-> ~ In o2 (snd (loadOrders [o1; o2])).
Proof.
  intros o1 o2.
  destruct (C2_loadOrders_partition [o1; o2]) as [_ [H _]].
  apply H. right; left; reflexivity.
Defined.

(* ------------------------------------------------------------------ *)
(** ** C10 *)

(** C10: on the row with the given id, PendingPaymentsPage's [cancelOrder]
    sets [status = 'cancelled'], [payment_status = 'failed'] and
    [updated_at = now]; the unified page's [cancelOrder] (confirmed) sets only
    [status = 'cancelled']. Rows with another id are untouched by both. A
    [mercadopago] order with [payment_status = 'pending'] is still
    payment-pending after the unified page's cancel, and no longer after
    PendingPaymentsPage's. *)
Theorem C10_cancel_frames (now : Z) (orderId : string) (o : Order)
  (Hid : o_id o = orderId) :
  cancelOrder_pendingPage now orderId [o]
    = [mkOrder (o_id o) (o_user_id o) "cancelled" "failed" (o_payment_method o)
               (o_created_at o) now]
  /\ cancelOrder_unifiedPage true orderId [o]
    = [mkOrder (o_id o) (o_user_id o) "cancelled" (o_payment_status o)
               (o_payment_method o) (o_created_at o) (o_updated_at o)]
  /\ (forall o', o_id o' <> orderId ->
        cancelOrder_pendingPage now orderId [o'] = [o']
        /\ cancelOrder_unifiedPage true orderId [o'] = [o'])
  /\ (o_payment_method o = "mercadopago" -> o_payment_status o = "pending" ->
      forallb isPendingOrder (cancelOrder_unifiedPage true orderId [o]) = true
      /\ existsb isPendingOrder (cancelOrder_pendingPage now orderId [o]) = false
      /\ existsb (pendingPaymentsQuery (o_user_id o))
           (cancelOrder_pendingPage now orderId [o]) = false).
Proof.
  unfold cancelOrder_pendingPage, cancelOrder_unifiedPage, updateWhereId; simpl.
  assert (E : String.eqb (o_id o) orderId = true) by (apply String.eqb_eq; exact Hid).
  rewrite E. split; [reflexivity|split; [reflexivity|split]].
  - intros o' Hne. apply String.eqb_neq in Hne. rewrite Hne. split; reflexivity.
  - intros Hm Hs. unfold isPendingOrder, pendingPaymentsQuery; simpl.
    rewrite Hm, Hs. split; [reflexivity|split; [reflexivity|]].
    rewrite andb_false_r. reflexivity.
Qed.

Lemma C10_cancel_frames_witness :
  let o := mkOrder "o1" "u1" "pending" "pending" "mercadopago" 0 0 in
  existsb isPendingOrder (cancelOrder_pendingPage 5 "o1" [o]) = false.
Proof.
  intros o.
  destruct (C10_cancel_frames 5 "o1" o eq_refl) as [_ [_ [_ H]]].
  apply H; reflexivity.
Defined.

(* ------------------------------------------------------------------ *)
(** ** C3 *)

(** C3 (cart store modelled from the spec): the total of an empty cart is 0
    and each line adds [unitPrice(product) * quantity]; quantity-based
    promotions ([2x1], [3x1], [3x2]) do not change the total; every line
    price Cart.tsx shows (when it is a number) is that line's
    [unitPrice * quantity]; one line of price 100, [discount] total_price 70,
    quantity 2 totals 140. *)
Theorem C3_cart_total :
  total [] = 0%Q
  /\ (forall i items, total (i :: items)
        = (unitPrice (ci_product i) * inject_Z (ci_quantity i) + total items)%Q)
  /\ (forall items, total (dropQuantityPromotions items) = total items)
  /\ (forall i q, cartLineShown i = Some q ->
        q = (unitPrice (ci_product i) * inject_Z (ci_quantity i))%Q)
  /\ total [mkCartItem (mkProduct "p1" 100 (Some (mkPromotion PromoDiscount (Some 70)))
                          None None) 2 None] = 140%Q.
Proof.
  split; [reflexivity|split; [reflexivity|split; [|split; [|reflexivity]]]].
  - induction items as [|i items IH]; [reflexivity|].
    simpl. rewrite IH. f_equal. f_equal.
    destruct i as [[pid price [[[] tp]|] sd desc] qty col]; reflexivity.
  - intros [[pid price promo sd desc] qty col] q. unfold cartLineShown, unitPrice; simpl.
    destruct promo as [[[] [tp|]]|]; simpl; congruence.
Qed.

Lemma C3_cart_total_witness :
  let i := mkCartItem (mkProduct "p1" 100 (Some (mkPromotion PromoDiscount (Some 70)))
                        None None) 2 None in
  (70 * 2)%Q = (unitPrice (ci_product i) * inject_Z (ci_quantity i))%Q.
Proof.
  intros i.
  destruct C3_cart_total as [_ [_ [_ [H _]]]].
  apply H. reflexivity.
Defined.

(* ------------------------------------------------------------------ *)
(** ** C8 *)

Lemma sameLine_iff (pid : string) (c : option string) (i : CartItem) :
  sameLine pid c i = true <-> p_id (ci_product i) = pid /\ ci_selectedColor i = c.
Proof.
  unfold sameLine. rewrite andb_true_iff, String.eqb_eq.
  destruct (ci_selectedColor i) as [a|], c as [b|];
    try rewrite String.eqb_eq; split; intros [H1 H2]; split; congruence.
Qed.

Lemma map_update_none {A : Type} (f : A -> bool) (g : A -> A) (l : list A) :
  existsb f l = false -> map (fun i => if f i then g i else i) l = l.
Proof.
  induction l as [|x l IH]; simpl; [reflexivity|].
  intros H. apply orb_false_iff in H as [H1 H2]. rewrite H1, IH; auto.
Qed.

Lemma addItem_new (items : list CartItem) (p : Product) (q : Z) (c : option string) :
  existsb (sameLine (p_id p) c) items = false ->
  addItem items p q c = (items ++ [mkCartItem p q c])%list.
Proof. intros H. unfold addItem. rewrite H. reflexivity. Qed.

(** C8 (cart store modelled from the spec): the line key is
    [(product id, selectedColor)]. On a cart without such a line, adding a
    product twice with the same colour (or twice without one) leaves one new
    line whose quantity is the sum; adding it with two different colours
    leaves two new lines. *)
Theorem C8_addItem_key (items : list CartItem) (p1 p2 : Product) (q1 q2 : Z)
  (c c' : option string)
  (Hid : p_id p1 = p_id p2)
  (Hc : existsb (sameLine (p_id p1) c) items = false)
  (Hc' : existsb (sameLine (p_id p1) c') items = false)
  (Hdiff : c <> c') :
  addItem (addItem items p1 q1 c) p2 q2 c = (items ++ [mkCartItem p1 (q1 + q2) c])%list
  /\ addItem (addItem items p1 q1 c) p2 q2 c'
     = (items ++ [mkCartItem p1 q1 c; mkCartItem p2 q2 c'])%list.
Proof.
  rewrite (addItem_new _ _ _ _ Hc). split.
  - unfold addItem. rewrite <- Hid.
    assert (Hl : sameLine (p_id p1) c (mkCartItem p1 q1 c) = true)
      by (apply sameLine_iff; auto).
    rewrite existsb_app, Hc. cbn [existsb]. rewrite Hl. cbn [orb].
    rewrite map_app, map_update_none by exact Hc. cbn [map]. rewrite Hl. reflexivity.
  - assert (Hl : sameLine (p_id p1) c' (mkCartItem p1 q1 c) = false).
    { destruct (sameLine (p_id p1) c' (mkCartItem p1 q1 c)) eqn:E; [|reflexivity].
      apply sameLine_iff in E as [_ E]. simpl in E. congruence. }
    unfold addItem. rewrite <- Hid, existsb_app, Hc'. cbn [existsb]. rewrite Hl.
    cbn [orb].
    rewrite <- app_assoc. reflexivity.
Qed.

Lemma C8_addItem_key_witness :
  let p := mkProduct "p1" 10 None None None in
  addItem (addItem [] p 1 None) p 2 None = [mkCartItem p 3 None]
  /\ addItem (addItem [] p 1 (Some "red")) p 2 (Some "blue")
     = [mkCartItem p 1 (Some "red"); mkCartItem p 2 (Some "blue")].
Proof.
  intros p. split.
  - exact (proj1 (C8_addItem_key [] p p 1 2 None (Some "x") eq_refl eq_refl eq_refl
                    ltac:(discriminate))).
  - exact (proj2 (C8_addItem_key [] p p 1 2 (Some "red") (Some "blue") eq_refl eq_refl
                    eq_refl ltac:(discriminate))).
Defined.

(* ------------------------------------------------------------------ *)
(** ** C4 *)

(** C4 (counterexample): 47 hours 59 minutes after creation one minute of the
    48-hour window is left; [getTimeRemaining] does not return 59 minutes. *)
Lemma C4_counterexample :
  getTimeRemaining 0 (47 * HOUR_MS + 59 * MINUTE_MS) <> "0h 59m remaining"
  /\ getTimeRemaining 0 (47 * HOUR_MS + 59 * MINUTE_MS) <> "0h 59m restantes".
Proof. split; vm_compute; discriminate. Qed.

(** C4 (amended): for an order created 47 hours and 59 minutes before now,
    [getTimeRemaining] returns ["0h 1m restantes"] (one minute left). *)
Theorem C4_time_remaining_47h59m (created : Z) :
  getTimeRemaining created (created + 47 * HOUR_MS + 59 * MINUTE_MS) = "0h 1m restantes".
Proof.
  unfold getTimeRemaining.
  replace (48 * 60 * 60 * 1000 - (created + 47 * HOUR_MS + 59 * MINUTE_MS - created))%Z
    with 60000%Z by (unfold HOUR_MS, MINUTE_MS; lia).
  reflexivity.
Qed.

(* ------------------------------------------------------------------ *)
(** ** C5 *)

(** C5: [getTimeRemaining] has a fixed 48-hour window: from 48 hours after
    creation on (48 hours included) it returns the expired text
    ["Expirado"]; before, it returns ["<H>h <M>m restantes"] (the page's
    wording of "Hh Mm remaining") with [H >= 0] and [0 <= M < 60], where
    [H] hours and [M] minutes is the time left rounded down to the minute. *)
Theorem C5_time_remaining_window (created now : Z) :
  ((48 * HOUR_MS <= now - created)%Z -> getTimeRemaining created now = "Expirado")
  /\ ((now - created < 48 * HOUR_MS)%Z ->
      exists h m : Z,
        (0 <= h)%Z /\ (0 <= m < 60)%Z
        /\ (h * HOUR_MS + m * MINUTE_MS <= 48 * HOUR_MS - (now - created)
            < h * HOUR_MS + (m + 1) * MINUTE_MS)%Z
        /\ getTimeRemaining created now
           = Z_to_string h ++ "h " ++ Z_to_string m ++ "m restantes").
Proof.
  unfold getTimeRemaining.
  set (d := (48 * 60 * 60 * 1000 - (now - created))%Z).
  assert (Hd : d = (48 * HOUR_MS - (now - created))%Z) by (unfold d, HOUR_MS; lia).
  split.
  - intros H. replace (Z.leb d 0) with true; [reflexivity|].
    symmetry. apply Z.leb_le. lia.
  - intros H. replace (Z.leb d 0) with false by (symmetry; apply Z.leb_gt; lia).
    exists (d / HOUR_MS)%Z, ((d mod HOUR_MS) / MINUTE_MS)%Z.
    rewrite <- Hd.
    assert (HH : (0 < HOUR_MS)%Z) by reflexivity.
    assert (HM : (0 < MINUTE_MS)%Z) by reflexivity.
    pose proof (Z.div_mod d HOUR_MS ltac:(lia)) as E1.
    pose proof (Z.mod_pos_bound d HOUR_MS HH) as B1.
    pose proof (Z.div_mod (d mod HOUR_MS) MINUTE_MS ltac:(lia)) as E2.
    pose proof (Z.mod_pos_bound (d mod HOUR_MS) MINUTE_MS HM) as B2.
    assert (P1 : (0 <= d / HOUR_MS)%Z) by (apply Z.div_pos; lia).
    assert (P2 : (0 <= (d mod HOUR_MS) / MINUTE_MS)%Z) by (apply Z.div_pos; lia).
    unfold HOUR_MS, MINUTE_MS in *.
    split; [lia|split; [split; [lia|]|split; [|reflexivity]]]; lia.
Qed.

Lemma C5_time_remaining_window_witness :
  getTimeRemaining 0 (48 * HOUR_MS) = "Expirado".
Proof.
  apply (proj1 (C5_time_remaining_window 0 (48 * HOUR_MS))).
  vm_compute. discriminate.
Defined.

(* ------------------------------------------------------------------ *)
(** ** C9 *)

(** C9 (counterexample): a [discount] promotion whose [total_price] is set to
    [0] gives no promotional price and no label, since [0] is falsy. *)
Lemma C9_counterexample :
  let p := mkProduct "p1" 100 (Some (mkPromotion PromoDiscount (Some 0))) None None in
  getPromotionalPrice p = None /\ getPromotionLabel p = None
  /\ ~ (forall (q : Product) (tp : Q),
          p_promotion q = Some (mkPromotion PromoDiscount (Some tp)) ->
          getPromotionalPrice q = Some tp).
Proof.
  intros p. split; [reflexivity|split; [reflexivity|]].
  intros H. specialize (H p 0%Q eq_refl). discriminate H.
Qed.

(** C9 (amended): [getPromotionalPrice] returns [total_price] exactly when
    the product has a [discount] promotion whose [total_price] is present and
    non-zero as a JS number, and [null] otherwise (no promotion, [2x1],
    [3x1], [3x2], or a [discount] without a non-zero [total_price]; a
    [total_price] of [0] is falsy); for a [discount] promotion with a
    present, non-zero [total_price], [getPromotionLabel] is
    ["<Math.round((1 - total_price/price) * 100)>% OFF"] with the arithmetic
    in double precision, and [null] for one without. In double precision,
    price [40] with [total_price] [17] gives ["57% OFF"] and price [0] gives
    ["-Infinity% OFF"]. *)
Theorem C9_promotion_price_label :
  (forall p pr tp, p_promotion p = Some pr -> pr_type pr = PromoDiscount ->
     pr_total_price pr = Some tp -> double_truthy (js_number tp) = true ->
     getPromotionalPrice p = Some tp
     /\ getPromotionLabel p
        = Some (number_to_string
                  (math_round (dmul (dsub (js_number 1)
                                          (ddiv (js_number tp) (js_number (p_price p))))
                                    (js_number 100))) ++ "% OFF"))
  /\ (forall p q, getPromotionalPrice p = Some q ->
        exists pr, p_promotion p = Some pr /\ pr_type pr = PromoDiscount
                   /\ pr_total_price pr = Some q /\ double_truthy (js_number q) = true)
  /\ (forall p pr, p_promotion p = Some pr -> pr_type pr <> PromoDiscount ->
        getPromotionalPrice p = None)
  /\ (forall p, p_promotion p = None -> getPromotionalPrice p = None)
  /\ (forall p pr, p_promotion p = Some pr -> pr_type pr = PromoDiscount ->
        (pr_total_price pr = None
         \/ exists tp, pr_total_price pr = Some tp /\ double_truthy (js_number tp) = false) ->
        getPromotionalPrice p = None /\ getPromotionLabel p = None)
  /\ (forall tp, (tp == 0)%Q -> double_truthy (js_number tp) = false)
  /\ getPromotionLabel (mkProduct "p" 40 (Some (mkPromotion PromoDiscount (Some 17))) None None)
     = Some "57% OFF"
  /\ getPromotionLabel (mkProduct "p" 0 (Some (mkPromotion PromoDiscount (Some 17))) None None)
     = Some "-Infinity% OFF".
Proof.
  split; [|split; [|split; [|split; [|split; [|split; [|split]]]]]].
  - intros p pr tp Hp Ht Htp Hnz.
    unfold getPromotionalPrice, getPromotionLabel, num_truthy.
    rewrite Hp, Ht, Htp, Hnz. split; reflexivity.
  - intros p q. unfold getPromotionalPrice, num_truthy.
    destruct (p_promotion p) as [pr|]; [|discriminate].
    destruct (pr_type pr) eqn:Ht, (pr_total_price pr) as [tp|] eqn:Htp;
      try discriminate.
    destruct (double_truthy (js_number tp)) eqn:E; intros H; inversion H; subst.
    exists pr. repeat split; auto.
  - intros p pr Hp Hne. unfold getPromotionalPrice. rewrite Hp.
    destruct (pr_type pr); try reflexivity; contradiction.
  - intros p Hp. unfold getPromotionalPrice. rewrite Hp. reflexivity.
  - intros p pr Hp Ht [Hn | [tp [Htp Hz]]];
      unfold getPromotionalPrice, getPromotionLabel, num_truthy; rewrite Hp, Ht.
    + rewrite Hn. split; reflexivity.
    + rewrite Htp, Hz. split; reflexivity.
  - intros [n d] Hz. unfold Qeq in Hz. simpl in Hz.
    assert (n = 0%Z) by lia. subst n. reflexivity.
  - vm_compute. reflexivity.
  - vm_compute. reflexivity.
Qed.

Lemma C9_promotion_price_label_witness :
  let p := mkProduct "p1" 100 (Some (mkPromotion PromoDiscount (Some 70))) None None in
  getPromotionalPrice p = Some 70%Q
  /\ getPromotionLabel p
     = Some (number_to_string
               (math_round (dmul (dsub (js_number 1) (ddiv (js_number 70) (js_number 100)))
                                 (js_number 100))) ++ "% OFF").
Proof.
  intros p.
  destruct C9_promotion_price_label as [H _].
  apply (H p (mkPromotion PromoDiscount (Some 70)) 70%Q eq_refl eq_refl eq_refl).
  vm_compute. reflexivity.
Defined.

(* ------------------------------------------------------------------ *)
(** ** C7 *)

Lemma strip_prefix_app (pre r : string) : strip_prefix pre (pre ++ r) = Some r.
Proof.
  induction pre as [|c pre IH]; simpl; [destruct r; reflexivity|].
  rewrite Ascii.eqb_refl. exact IH.
Qed.

Lemma strip_prefix_some (pre s r : string) : strip_prefix pre s = Some r -> s = pre ++ r.
Proof.
  revert s. induction pre as [|c pre IH]; intros s H; simpl in *.
  - destruct s; congruence.
  - destruct s as [|c' t]; [discriminate|].
    destruct (Ascii.eqb c c') eqn:E; [|discriminate].
    apply Ascii.eqb_eq in E. subst. f_equal. apply IH, H.
Qed.

Lemma take_digits_spec (s d r : string) :
  take_digits s = (d, r) -> s = d ++ r /\ all_digits d = true.
Proof.
  revert d r. induction s as [|c t IH]; intros d r H; simpl in H.
  - inversion H; subst. split; reflexivity.
  - destruct (is_digit c) eqn:Ec.
    + destruct (take_digits t) as [d' r'] eqn:Et. inversion H; subst.
      destruct (IH d' r eq_refl) as [-> Hd].
      split; [reflexivity|]. unfold all_digits; simpl. rewrite Ec. exact Hd.
    + inversion H; subst. split; reflexivity.
Qed.

Lemma take_digits_app (d post : string) :
  all_digits d = true -> take_digits (d ++ String "]" post) = (d, String "]" post).
Proof.
  induction d as [|c d IH]; intros H; [reflexivity|].
  unfold all_digits in H; simpl in H. apply andb_true_iff in H as [Hc Hd].
  simpl. rewrite Hc, IH by exact Hd. reflexivity.
Qed.

Lemma match_shipping_at_sound (s d : string) :
  match_shipping_at s = Some d -> shipping_tag_at s EmptyString d.
Proof.
  unfold match_shipping_at.
  destruct (strip_prefix SHIPPING_TAG s) as [r|] eqn:Hs; [|discriminate].
  apply strip_prefix_some in Hs.
  destruct (take_digits r) as [d' r'] eqn:Ht.
  apply take_digits_spec in Ht as [-> Hd].
  destruct d' as [|c0 d0]; [discriminate|].
  destruct r' as [|c1 post]; [discriminate|].
  destruct (Ascii.eqb c1 "]"%char) eqn:E1.
  - apply Ascii.eqb_eq in E1. subst c1.
    intros H. injection H as <-.
    split; [exists post; exact Hs|split; [discriminate|exact Hd]].
  - destruct c1 as [[] [] [] [] [] [] [] []]; try discriminate; simpl in E1; discriminate.
Qed.

Lemma match_shipping_at_complete (s d : string) :
  shipping_tag_at s EmptyString d -> match_shipping_at s = Some d.
Proof.
  intros [[post ->] [Hne Hd]]. cbn [String.append].
  unfold match_shipping_at. rewrite strip_prefix_app, take_digits_app by exact Hd.
  destruct d; [contradiction|reflexivity].
Qed.

Lemma shipping_tag_at_cons (c : ascii) (t pre d : string) :
  shipping_tag_at (String c t) (String c pre) d <-> shipping_tag_at t pre d.
Proof.
  unfold shipping_tag_at. split; intros [[post Hp] Hr]; split; auto; exists post.
  - simpl in Hp. injection Hp as Hp. exact Hp.
  - simpl. rewrite Hp. reflexivity.
Qed.

(** The scanner returns the digits of the leftmost match. *)
Lemma match_shipping_first (s d : string) :
  match_shipping s = Some d ->
  exists pre, shipping_tag_at s pre d
    /\ forall pre' d', shipping_tag_at s pre' d' -> (String.length pre <= String.length pre')%nat.
Proof.
  revert d. induction s as [|c t IH]; intros d H.
  - vm_compute in H. discriminate H.
  - simpl in H. destruct (match_shipping_at (String c t)) as [d0|] eqn:E.
    + injection H as <-. exists EmptyString.
      split; [apply match_shipping_at_sound, E|intros; simpl; lia].
    + destruct (IH d H) as [pre [Hat Hmin]].
      exists (String c pre). split; [apply shipping_tag_at_cons, Hat|].
      intros [|c' pre'] d' Hat'.
      * apply match_shipping_at_complete in Hat'. congruence.
      * destruct Hat' as [[post Hp] Hr]. simpl in Hp. injection Hp as <- Hp.
        simpl. apply le_n_S, (Hmin pre' d'). split; [exists post; exact Hp|exact Hr].
Qed.

Lemma match_shipping_complete (s pre d : string) :
  shipping_tag_at s pre d -> exists d', match_shipping s = Some d'.
Proof.
  revert s. induction pre as [|c pre IH]; intros s Hat.
  - pose proof (match_shipping_at_complete _ _ Hat) as E.
    destruct s as [|c t]; [vm_compute in E; discriminate E|].
    cbn [match_shipping]. rewrite E. eexists; reflexivity.
  - destruct Hat as [[post Hp] Hr]. simpl in Hp. subst s.
    cbn [match_shipping]. destruct (match_shipping_at _); [eexists; reflexivity|].
    apply (IH _). split; [exists post; reflexivity|exact Hr].
Qed.

(** C7: [getShippingDays] resolves in this order: a set (present, non-empty)
    [shipping_days] field is returned; otherwise, when the description
    contains a match of [[shipping_days:<digits>]], the digits of the first
    such match are returned; otherwise ["3-5"]. *)
Theorem C7_getShippingDays_precedence :
  (forall p sd, p_shipping_days p = Some sd -> sd <> EmptyString ->
     getShippingDays p = sd)
  /\ (forall p desc pre d,
        (p_shipping_days p = None \/ p_shipping_days p = Some EmptyString) ->
        p_description p = Some desc -> shipping_tag_at desc pre d ->
        exists pre0, shipping_tag_at desc pre0 (getShippingDays p)
          /\ forall pre' d', shipping_tag_at desc pre' d' ->
               (String.length pre0 <= String.length pre')%nat)
  /\ (forall p,
        (p_shipping_days p = None \/ p_shipping_days p = Some EmptyString) ->
        (forall desc, p_description p = Some desc ->
           forall pre d, ~ shipping_tag_at desc pre d) ->
        getShippingDays p = "3-5").
Proof.
  unfold getShippingDays. split; [|split].
  - intros p sd Hs Hne. rewrite Hs. destruct sd; [contradiction|reflexivity].
  - intros p desc pre d Hsd Hd Hat.
    assert (Hn : str_truthy (p_shipping_days p) = None)
      by (destruct Hsd as [-> | ->]; reflexivity).
    rewrite Hn, Hd.
    destruct (match_shipping_complete _ _ _ Hat) as [d' Hm].
    destruct (match_shipping_first _ _ Hm) as [pre0 [Hat0 Hmin]].
    destruct desc as [|c t].
    + destruct Hat as [[post Hp] _]. destruct pre; discriminate Hp.
    + cbn [str_truthy]. rewrite Hm.
      destruct d' as [|c' d'']; [destruct Hat0 as [_ [[] _]]; reflexivity|].
      exists pre0. split; assumption.
  - intros p Hsd Hno.
    assert (Hn : str_truthy (p_shipping_days p) = None)
      by (destruct Hsd as [-> | ->]; reflexivity).
    rewrite Hn.
    destruct (p_description p) as [desc|] eqn:Hd; [|reflexivity].
    destruct (str_truthy (Some desc)) as [desc'|] eqn:Ht; [|reflexivity].
    assert (desc' = desc) as ->
      by (destruct desc; simpl in Ht; congruence).
    destruct (match_shipping desc) as [d|] eqn:Hm; [|reflexivity].
    destruct (match_shipping_first _ _ Hm) as [pre0 [Hat0 _]].
    exfalso. exact (Hno desc eq_refl pre0 d Hat0).
Qed.

Lemma C7_getShippingDays_precedence_witness :
  getShippingDays (mkProduct "p1" 10 None (Some "7") (Some "[shipping_days:2]")) = "7".
Proof.
  apply (proj1 C7_getShippingDays_precedence); [reflexivity|discriminate].
Defined.

(* ------------------------------------------------------------------ *)
(** ** C6 *)

(** C6: [getOrderEstimatedDays] on items whose shipping days are ["0"] and
    ["3"]: [parseInt("0") || 5] turns the ["0"] into 5, so the synthesized
    range is ["3-5"], whose upper bound 5 is not the largest value found (3).
    On ["3-5"] and ["7"] the range is ["5-7"]. *)
Theorem C6_estimated_days_zero :
  let item sd := mkProduct "p" 10 None (Some sd) None in
  upperDays "0" = Some 5%Z
  /\ getOrderEstimatedDays [item "0"; item "3"] = "3-5"
  /\ getOrderEstimatedDays [item "3-5"; item "7"] = "5-7".
Proof. vm_compute. repeat split. Qed.

(* ================================================================== *)
(** * Further properties of the pages *)

(* ------------------------------------------------------------------ *)
(** ** Expanded orders *)

Lemma set_has_add (s : StrSet) (x y : string) :
  set_has (set_add s x) y = String.eqb y x || set_has s y.
Proof.
  unfold set_add, set_has.
  destruct (existsb (String.eqb x) s) eqn:E.
  - destruct (String.eqb y x) eqn:Eyx; [|reflexivity].
    apply String.eqb_eq in Eyx; subst. rewrite E. reflexivity.
  - rewrite existsb_app. simpl. rewrite orb_false_r, orb_comm. reflexivity.
Qed.

Lemma set_has_delete (s : StrSet) (x y : string) :
  set_has (set_delete s x) y = negb (String.eqb y x) && set_has s y.
Proof.
  unfold set_delete, set_has.
  induction s as [|z s IH]; simpl; [now rewrite andb_false_r|].
  destruct (String.eqb x z) eqn:Exz; simpl.
  - apply String.eqb_eq in Exz; subst.
    rewrite IH. destruct (String.eqb y z); reflexivity.
  - rewrite IH. destruct (String.eqb y z) eqn:Eyz; simpl.
    + apply String.eqb_eq in Eyz; subst.
      rewrite String.eqb_sym, Exz. reflexivity.
    + reflexivity.
Qed.

(** [toggleOrderExpansion] flips whether the toggled order is expanded and
    leaves every other order as it was; toggling twice restores the
    expanded state of every order. *)
Theorem toggleOrderExpansion_flips (expanded : StrSet) (orderId x : string) :
  set_has (toggleOrderExpansion expanded orderId) x
    = (if String.eqb x orderId then negb (set_has expanded orderId)
       else set_has expanded x)
  /\ set_has (toggleOrderExpansion (toggleOrderExpansion expanded orderId) orderId) x
     = set_has expanded x.
Proof.
  assert (H : forall s, set_has (toggleOrderExpansion s orderId) x
                = (if String.eqb x orderId then negb (set_has s orderId)
                   else set_has s x)).
  { intros s. unfold toggleOrderExpansion.
    destruct (set_has s orderId) eqn:Eo.
    - rewrite set_has_delete.
      destruct (String.eqb x orderId) eqn:Ex; reflexivity.
    - rewrite set_has_add.
      destruct (String.eqb x orderId) eqn:Ex; [reflexivity|reflexivity]. }
  split; [apply H|].
  rewrite H. destruct (String.eqb x orderId) eqn:Ex.
  - apply String.eqb_eq in Ex; subst.
    rewrite H, negb_involutive. reflexivity.
  - rewrite H. reflexivity.
Qed.

(* ------------------------------------------------------------------ *)
(** ** Products in an order *)

Lemma fold_quantity_acc (items : list OrderItem) (a : Z) :
  fold_left (fun total item => total + oi_quantity item)%Z items a
  = (a + fold_left (fun total item => total + oi_quantity item)%Z items 0)%Z.
Proof.
  revert a. induction items as [|i items IH]; intros a; simpl; [lia|].
  rewrite IH. symmetry. rewrite IH. lia.
Qed.

(** [getTotalProductsInOrder] is 0 when the order has no items (missing or
    empty), adds up over concatenated item lists, and is at least the number
    of lines when every quantity is positive. *)
Theorem getTotalProductsInOrder_props :
  getTotalProductsInOrder None = 0%Z
  /\ getTotalProductsInOrder (Some []) = 0%Z
  /\ (forall l1 l2, getTotalProductsInOrder (Some (l1 ++ l2)%list)
        = (getTotalProductsInOrder (Some l1) + getTotalProductsInOrder (Some l2))%Z)
  /\ (forall l, Forall (fun i => (1 <= oi_quantity i)%Z) l ->
        (Z.of_nat (length l) <= getTotalProductsInOrder (Some l))%Z).
Proof.
  unfold getTotalProductsInOrder.
  split; [reflexivity|split; [reflexivity|split]].
  - intros l1 l2. rewrite fold_left_app, fold_quantity_acc. reflexivity.
  - induction l as [|i l IH]; intros H; simpl; [lia|].
    inversion H as [|? ? Hi Hl]; subst.
    rewrite fold_quantity_acc. specialize (IH Hl). lia.
Qed.

Lemma getTotalProductsInOrder_props_witness :
  let it := mkOrderItem 2 10 None (mkProduct "p1" 10 None None None) in
  (Z.of_nat (length [it; it]) <= getTotalProductsInOrder (Some [it; it]))%Z.
Proof.
  intros it. apply (proj2 (proj2 (proj2 getTotalProductsInOrder_props))).
  repeat constructor; simpl; lia.
Defined.

(* ------------------------------------------------------------------ *)
(** ** The two order lists *)

(** PendingPaymentsPage lists exactly the [mercadopago] orders with
    [payment_status = 'pending'] of the unified page's pending tab, in the
    same order; the pending tab may hold more ([payment_pending] orders). *)
Theorem pendingPage_sub_unifiedPending (uid : string) (table : list Order) :
  loadPendingOrders uid table
  = filter (fun o => String.eqb (o_payment_method o) "mercadopago"
                     && String.eqb (o_payment_status o) "pending")
      (snd (loadOrders (userOrdersQuery uid table))).
Proof.
  unfold loadPendingOrders, loadOrders, userOrdersQuery, pendingPaymentsQuery; simpl.
  induction table as [|o t IH]; simpl; [reflexivity|].
  destruct (String.eqb (o_user_id o) uid); simpl; [|exact IH].
  unfold isPendingOrder.
  destruct (String.eqb (o_payment_method o) "mercadopago") eqn:Em,
           (String.eqb (o_payment_status o) "pending") eqn:Es,
           (String.eqb (o_payment_status o) "payment_pending") eqn:Ep;
    simpl; try rewrite Em, Es; simpl; rewrite ?IH; reflexivity.
Qed.

(** After PendingPaymentsPage cancels an order, reloading the page lists the
    same orders as before minus the cancelled one. *)
Theorem cancel_pendingPage_reload (now : Z) (orderId uid : string) (table : list Order) :
  loadPendingOrders uid (cancelOrder_pendingPage now orderId table)
  = filter (fun o => negb (String.eqb (o_id o) orderId)) (loadPendingOrders uid table).
Proof.
  unfold loadPendingOrders, cancelOrder_pendingPage, updateWhereId.
  induction table as [|o t IH]; simpl; [reflexivity|].
  destruct (String.eqb (o_id o) orderId) eqn:Ei; simpl.
  - unfold pendingPaymentsQuery at 1; simpl. rewrite andb_false_r.
    destruct (pendingPaymentsQuery uid o); simpl; rewrite ?Ei; simpl; exact IH.
  - destruct (pendingPaymentsQuery uid o); simpl; rewrite ?Ei; simpl; rewrite IH;
      reflexivity.
Qed.

Lemma isPendingOrder_cancel_unified (o : Order) :
  isPendingOrder (cancelFields_unifiedPage o) = isPendingOrder o.
Proof. reflexivity. Qed.

(** Cancelling on the unified page moves no order between the two tabs: after
    a reload both tabs hold the same order ids, in the same order. *)
Theorem cancel_unifiedPage_same_tabs (confirmed : bool) (orderId : string)
  (orders : list Order) :
  map o_id (fst (loadOrders (cancelOrder_unifiedPage confirmed orderId orders)))
    = map o_id (fst (loadOrders orders))
  /\ map o_id (snd (loadOrders (cancelOrder_unifiedPage confirmed orderId orders)))
    = map o_id (snd (loadOrders orders)).
Proof.
  unfold cancelOrder_unifiedPage. destruct confirmed; [|split; reflexivity].
  rewrite !loadOrders_fst. simpl snd. unfold updateWhereId.
  induction orders as [|o t [IH1 IH2]]; simpl; [split; reflexivity|].
  destruct (String.eqb (o_id o) orderId);
    rewrite ?isPendingOrder_cancel_unified;
    destruct (isPendingOrder o); simpl; rewrite ?IH1, ?IH2; split; reflexivity.
Qed.

(* ------------------------------------------------------------------ *)
(** ** Retrying a payment *)





(* ------------------------------------------------------------------ *)
(** ** Estimated shipping days of an order *)

Lemma uniqueValues_fold (xs : list string) :
  uniqueValues xs = fold_left uniqueStep xs [].
Proof. reflexivity. Qed.

Lemma unique_fold_In (xs acc : list string) (x : string) :
  In x (fold_left uniqueStep xs acc) <-> In x acc \/ In x xs.
Proof.
  revert acc. induction xs as [|y xs IH]; intros acc; simpl; [tauto|].
  rewrite IH. unfold uniqueStep.
  destruct (existsb (String.eqb y) acc) eqn:E.
  - apply existsb_exists in E as [z [Hz Ez]]. apply String.eqb_eq in Ez. subst z.
    split; [tauto|]. intros [H|[H|H]]; subst; tauto.
  - rewrite in_app_iff. simpl. split; intros; tauto.
Qed.

Lemma unique_fold_NoDup (xs acc : list string) :
  NoDup acc -> NoDup (fold_left uniqueStep xs acc).
Proof.
  revert acc. induction xs as [|y xs IH]; intros acc Hacc; simpl; [exact Hacc|].
  apply IH. unfold uniqueStep.
  destruct (existsb (String.eqb y) acc) eqn:E; [exact Hacc|].
  apply NoDup_app; [exact Hacc|constructor; [intros []|constructor]|].
  intros z Hz [Ez|[]]. subst z.
  assert (existsb (String.eqb y) acc = true)
    by (apply existsb_exists; exists y; split; [exact Hz|apply String.eqb_refl]).
  congruence.
Qed.

Lemma unique_fold_same (v : string) (xs : list string) :
  Forall (eq v) xs -> fold_left uniqueStep xs [v] = [v].
Proof.
  induction xs as [|y xs IH]; intros H; simpl; [reflexivity|].
  inversion H as [|? ? Hy Hxs]; subst.
  unfold uniqueStep at 2. simpl. rewrite String.eqb_refl. simpl. apply IH, Hxs.
Qed.

(** [getOrderEstimatedDays] gives ["3-5"] for an order without items, and
    the common value when every item resolves to the same shipping days. *)
Theorem getOrderEstimatedDays_same (items : list Product) (v : string)
  (Hne : items <> [])
  (Hall : Forall (fun it => getShippingDays it = v) items) :
  getOrderEstimatedDays [] = "3-5" /\ getOrderEstimatedDays items = v.
Proof.
  split; [reflexivity|].
  destruct items as [|it its]; [contradiction|].
  unfold getOrderEstimatedDays. rewrite uniqueValues_fold.
  inversion Hall as [|? ? Hit Hits]; subst. simpl.
  unfold uniqueStep at 2. simpl.
  rewrite unique_fold_same; [reflexivity|].
  rewrite Forall_map. eapply Forall_impl; [|exact Hits]. intros a Ha. simpl. auto.
Qed.

Lemma getOrderEstimatedDays_same_witness :
  let p := mkProduct "p" 10 None (Some "7") None in
  getOrderEstimatedDays [p; p] = "7".
Proof.
  intros p.
  apply (getOrderEstimatedDays_same [p; p] "7"); [discriminate|].
  repeat constructor.
Defined.

Lemma jsnum_max_fold (ys : list JsNum) (m0 : Z) :
  (forall y, In y ys -> exists n, y = Some n) ->
  exists M, fold_left jsnum_max ys (Some m0) = Some M
    /\ (m0 <= M)%Z /\ (forall n, In (Some n) ys -> (n <= M)%Z)
    /\ (M = m0 \/ In (Some M) ys).
Proof.
  revert m0. induction ys as [|y ys IH]; intros m0 Hs; simpl.
  - exists m0. split; [reflexivity|split; [lia|split; [intros _ []|left; reflexivity]]].
  - destruct (Hs y (or_introl eq_refl)) as [n ->]. simpl.
    destruct (IH (Z.max m0 n)) as [M [HM [Hle [Hall Hor]]]];
      [intros y' Hy'; apply Hs; right; exact Hy'|].
    exists M. split; [exact HM|split; [lia|split]].
    + intros n' [Hn'|Hn']; [injection Hn' as <-; lia|apply Hall, Hn'].
    + destruct Hor as [->|Hin]; [|right; right; exact Hin].
      destruct (Z.max_spec m0 n) as [[_ ->]|[_ ->]]; [right; left; reflexivity|left; reflexivity].
Qed.

(** When two items of an order resolve to different shipping days and every
    item's upper bound parses, [getOrderEstimatedDays] returns
    ["<max(3, M - 2)>-<M>"], where [M] is the largest of the items' upper
    bounds and is the upper bound of one of them. When [M < 3] the range is
    inverted (e.g. ["3-2"]). *)
Theorem getOrderEstimatedDays_differing (items : list Product) (a b : Product)
  (Ha : In a items) (Hb : In b items)
  (Hab : getShippingDays a <> getShippingDays b)
  (Hall : forall it, In it items -> exists n, upperDays (getShippingDays it) = Some n) :
  exists M : Z,
    (forall it n, In it items -> upperDays (getShippingDays it) = Some n -> (n <= M)%Z)
    /\ (exists it, In it items /\ upperDays (getShippingDays it) = Some M)
    /\ getOrderEstimatedDays items = Z_to_string (Z.max 3 (M - 2)) ++ "-" ++ Z_to_string M.
Proof.
  destruct items as [|it its]; [destruct Ha|].
  destruct (Hall it (or_introl eq_refl)) as [m0 Hm0].
  destruct (jsnum_max_fold (map upperDays (map getShippingDays its)) m0) as
      [M [HM [Hle [HallM Hor]]]].
  { intros y Hy. rewrite map_map, in_map_iff in Hy. destruct Hy as [it' [<- Hit']].
    apply Hall. right. exact Hit'. }
  exists M. split; [|split].
  - intros it' n [<-|Hit'] Hn; [congruence|].
    apply HallM. rewrite map_map, in_map_iff. exists it'. split; assumption.
  - destruct Hor as [->|Hin]; [exists it; split; [left; reflexivity|exact Hm0]|].
    rewrite map_map, in_map_iff in Hin. destruct Hin as [it' [Hu Hit']].
    exists it'. split; [right; exact Hit'|exact Hu].
  - unfold getOrderEstimatedDays. unfold jsnum_max_list. rewrite Hm0, HM.
    destruct (uniqueValues (map getShippingDays (it :: its))) as [|u [|u2 us]] eqn:U;
      try reflexivity.
    exfalso.
    assert (Hu : forall x, In x (map getShippingDays (it :: its)) -> x = u).
    { intros x Hx.
      assert (Hx' : In x (uniqueValues (map getShippingDays (it :: its))))
        by (rewrite uniqueValues_fold, unique_fold_In; right; exact Hx).
      rewrite U in Hx'. destruct Hx' as [->|[]]; reflexivity. }
    apply Hab. rewrite (Hu (getShippingDays a)), (Hu (getShippingDays b));
      [reflexivity| |]; apply in_map; assumption.
Qed.

Lemma getOrderEstimatedDays_differing_witness :
  let p1 := mkProduct "p1" 10 None (Some "1") None in
  let p2 := mkProduct "p2" 10 None (Some "2") None in
  exists M : Z,
    (forall it n, In it [p1; p2] -> upperDays (getShippingDays it) = Some n -> (n <= M)%Z)
    /\ (exists it, In it [p1; p2] /\ upperDays (getShippingDays it) = Some M)
    /\ getOrderEstimatedDays [p1; p2] = Z_to_string (Z.max 3 (M - 2)) ++ "-" ++ Z_to_string M.
Proof.
  intros p1 p2.
  apply (getOrderEstimatedDays_differing [p1; p2] p1 p2 (or_introl eq_refl)
           (or_intror (or_introl eq_refl))).
  - discriminate.
  - intros it [<-|[<-|[]]]; eexists; reflexivity.
Defined.

(* ------------------------------------------------------------------ *)
(** ** Discount label range *)

Lemma round_ne_nonneg (a b : Z) : (0 <= a)%Z -> (0 < b)%Z -> (0 <= round_ne a b)%Z.
Proof.
  intros Ha Hb. unfold round_ne.
  assert (0 <= a / b)%Z by (apply Z.div_pos; lia).
  destruct (Z.compare _ _); [destruct (Z.even _)|..]; lia.
Qed.

(** Rounding [a / b] to an integer never passes an integer bound [K]. *)
Lemma round_ne_le (a b K : Z) :
  (0 <= a)%Z -> (0 < b)%Z -> (a <= K * b)%Z -> (round_ne a b <= K)%Z.
Proof.
  intros Ha Hb HK. unfold round_ne.
  pose proof (Z.div_mod a b ltac:(lia)) as Ed.
  pose proof (Z.mod_pos_bound a b Hb) as Er.
  assert (Hq : (a / b <= K)%Z) by (apply Z.div_le_upper_bound; lia).
  destruct (Z.eq_dec (a / b) K) as [Eq|Ne].
  - assert (a mod b = 0)%Z by nia.
    rewrite H. destruct b; try lia. simpl. lia.
  - destruct (Z.compare _ _); [destruct (Z.even _)|..]; lia.
Qed.

Lemma floor_log2_le (a b m : Z) :
  (0 < a)%Z -> (0 < b)%Z -> (0 < m)%Z -> (a <= m * b)%Z ->
  (floor_log2 a b <= Z.log2 m + 1)%Z.
Proof.
  intros Ha Hb Hm Hab. unfold floor_log2.
  assert (L : (Z.log2 a <= Z.log2 m + Z.log2 b + 1)%Z).
  { transitivity (Z.log2 (m * b)); [apply Z.log2_le_mono; exact Hab|].
    apply Z.log2_mul_above; lia. }
  destruct (Z.leb 0 _); [destruct (Z.leb _ a)|destruct (Z.leb b _)]; lia.
Qed.

(** A positive value at most a small integer [m] rounds to [+0] or to a
    positive double at most [m]. *)
Lemma round64_pos_bound (v : Q) (m : Z) :
  (0 < v)%Q -> (v <= inject_Z m)%Q -> (m <= 100)%Z ->
  round64 v = DZero false
  \/ exists r, round64 v = DFin r /\ (0 < r)%Q /\ (r <= inject_Z m)%Q.
Proof.
  destruct v as [n d]. unfold Qlt, Qle. simpl. intros Hn Hnm Hm100.
  rewrite Z.mul_1_r in Hnm, Hn.
  assert (Hm : (0 < m)%Z) by nia.
  unfold round64. simpl Qnum. simpl Qden.
  rewrite (Z.abs_eq n) by lia.
  replace (Z.eqb n 0) with false by (symmetry; apply Z.eqb_neq; lia).
  replace (Z.ltb n 0) with false by (symmetry; apply Z.ltb_ge; lia).
  assert (Hf : (floor_log2 n (Zpos d) <= 7)%Z).
  { pose proof (floor_log2_le n (Zpos d) m Hn ltac:(lia) Hm Hnm).
    assert (Z.log2 m <= Z.log2 100)%Z by (apply Z.log2_le_mono; lia).
    simpl in H0. lia. }
  set (qe := Z.max (floor_log2 n (Zpos d) - 52) (-1074)).
  assert (Hqe : (qe < 0)%Z) by (unfold qe; lia).
  replace (Z.leb 0 qe) with false by (symmetry; apply Z.leb_gt; lia).
  set (K := (2 ^ (- qe))%Z).
  assert (HK : (0 < K)%Z) by (apply Z.pow_pos_nonneg; lia).
  set (r := round_ne (n * K) (Zpos d)).
  assert (Hr0 : (0 <= r)%Z) by (apply round_ne_nonneg; lia).
  assert (Hr1 : (r <= m * K)%Z) by (apply round_ne_le; nia).
  destruct (Z.eqb r 0) eqn:Er; [left; reflexivity|right].
  apply Z.eqb_neq in Er.
  replace (Z.leb (1024 - qe) (Z.log2 r)) with false.
  2:{ symmetry. apply Z.leb_gt.
      assert (Z.log2 r <= Z.log2 (m * K))%Z by (apply Z.log2_le_mono; lia).
      assert (Z.log2 (m * K) <= Z.log2 m + Z.log2 K + 1)%Z
        by (apply Z.log2_mul_above; lia).
      assert (Z.log2 K = - qe)%Z by (unfold K; apply Z.log2_pow2; lia).
      assert (Z.log2 m <= Z.log2 100)%Z by (apply Z.log2_le_mono; lia).
      simpl in H2. lia. }
  eexists. split; [reflexivity|].
  unfold pow2. replace (Z.leb 0 qe) with false by (symmetry; apply Z.leb_gt; lia).
  fold K. unfold Qlt, Qle, Qmult, inject_Z. simpl.
  rewrite Z2Pos.id by exact HK. split; lia.
Qed.

(** [Number::toString] of the integers [1] to [100] is their decimal digits. *)
Lemma pos_to_string_small (z : Z) :
  (1 <= z <= 100)%Z -> pos_to_string (inject_Z z) = Z_to_string z.
Proof.
  intros Hz.
  assert (C : forallb (fun k => String.eqb (pos_to_string (inject_Z k)) (Z_to_string k))
                      (map Z.of_nat (seq 1 100)) = true) by (vm_compute; reflexivity).
  rewrite forallb_forall in C.
  apply String.eqb_eq, C, in_map_iff. exists (Z.to_nat z). split; [lia|].
  apply in_seq. lia.
Qed.

Lemma math_round_small (w : Q) :
  (0 < w)%Q -> (w <= 100)%Q ->
  exists d, (0 <= d <= 100)%Z /\ number_to_string (math_round (DFin w)) = Z_to_string d.
Proof.
  intros H0 H1. unfold math_round.
  set (x := (w + (1 # 2))%Q).
  pose proof (Qfloor_le x) as F1. pose proof (Qlt_floor x) as F2.
  set (z := Qfloor x) in *.
  rewrite inject_Z_plus in F2.
  assert (D1 : (inject_Z z <= 201 # 2)%Q) by (unfold x in F1; lra).
  assert (D0 : (0 < inject_Z z + inject_Z 1)%Q) by (unfold x in F2; lra).
  assert (Hz : (0 <= z <= 100)%Z)
    by (unfold Qle, Qlt, inject_Z, Qplus in *; simpl in *; lia).
  destruct (Z.eqb z 0) eqn:E.
  - exists 0%Z. split; [lia|reflexivity].
  - apply Z.eqb_neq in E. exists z. split; [exact Hz|].
    unfold number_to_string. simpl Qnum.
    replace (Z.ltb z 0) with false by (symmetry; apply Z.ltb_ge; lia).
    apply pos_to_string_small. lia.
Qed.

Lemma js_number_one : js_number 1 = DFin (4503599627370496 # 4503599627370496).
Proof. vm_compute. reflexivity. Qed.

Lemma js_number_hundred : js_number 100 = DFin (7036874417766400 # 70368744177664).
Proof. vm_compute. reflexivity. Qed.

(** For a [discount] promotion whose [total_price] and price, as JS numbers,
    satisfy [0 < total_price <= price], [getPromotionLabel] is
    ["<d>% OFF"] with [0 <= d <= 100], in double-precision arithmetic. *)
Theorem getPromotionLabel_discount_range (p : Product) (pr : Promotion) (tp t pc : Q)
  (Hp : p_promotion p = Some pr) (Ht : pr_type pr = PromoDiscount)
  (Htp : pr_total_price pr = Some tp)
  (Ht' : js_number tp = DFin t) (Hpc : js_number (p_price p) = DFin pc)
  (Hpos : (0 < t)%Q) (Hle : (t <= pc)%Q) :
  exists d : Z, (0 <= d <= 100)%Z /\ getPromotionLabel p = Some (Z_to_string d ++ "% OFF").
Proof.
  unfold getPromotionLabel, num_truthy. rewrite Hp, Ht, Htp, Ht', Hpc.
  cbn [double_truthy]. rewrite Ht'. cbn [ddiv].
  assert (Hq0 : (0 < t / pc)%Q) by (apply Qlt_shift_div_l; lra).
  assert (Hq1 : (t / pc <= inject_Z 1)%Q) by (apply Qle_shift_div_r; [lra|];
     change (inject_Z 1) with 1%Q; rewrite Qmult_1_l; exact Hle).
  (* a zero before [Math.round] prints as [0] *)
  assert (Zc : forall s, exists d : Z, (0 <= d <= 100)%Z
             /\ Some (number_to_string (math_round (dmul (DZero s) (js_number 100))) ++ "% OFF")
                = Some (Z_to_string d ++ "% OFF")).
  { intros s. exists 0%Z. split; [lia|]. rewrite js_number_hundred. reflexivity. }
  destruct (round64_pos_bound (t / pc) 1 Hq0 Hq1 ltac:(lia))
    as [E1 | [r [E1 [Hr0 Hr1]]]]; rewrite E1.
  - exists 100%Z. split; [lia|]. vm_compute. reflexivity.
  - unfold dsub. rewrite js_number_one. cbn [dneg dadd].
    destruct (Qeq_bool _ 0) eqn:E2; [apply Zc|].
    set (c1 := (4503599627370496 # 4503599627370496)%Q) in *.
    assert (Hc1 : (c1 == 1)%Q) by reflexivity.
    change (inject_Z 1) with 1%Q in Hr1.
    assert (Hs0 : (0 < c1 + - r)%Q).
    { apply Qeq_bool_neq in E2.
      assert (Hle1 : (0 <= c1 + - r)%Q) by lra.
      apply Qle_lteq in Hle1. destruct Hle1 as [Hlt|Heq]; [exact Hlt|].
      exfalso. apply E2. symmetry. exact Heq. }
    assert (Hs1 : (c1 + - r <= inject_Z 1)%Q)
      by (change (inject_Z 1) with 1%Q; lra).
    destruct (round64_pos_bound _ 1 Hs0 Hs1 ltac:(lia)) as [E3 | [u [E3 [Hu0 Hu1]]]];
      rewrite E3; [apply Zc|].
    rewrite js_number_hundred. cbn [dmul].
    assert (Hw0 : (0 < u * (7036874417766400 # 70368744177664))%Q).
    { apply Qmult_lt_0_compat; [exact Hu0|reflexivity]. }
    assert (Hw1 : (u * (7036874417766400 # 70368744177664) <= inject_Z 100)%Q).
    { change (inject_Z 1) with 1%Q in Hu1.
      setoid_replace (7036874417766400 # 70368744177664)%Q with 100%Q by reflexivity.
      change (inject_Z 100) with 100%Q. lra. }
    destruct (round64_pos_bound _ 100 Hw0 Hw1 ltac:(lia)) as [E4 | [w [E4 [Hw2 Hw3]]]];
      rewrite E4.
    + exists 0%Z. split; [lia|reflexivity].
    + destruct (math_round_small w Hw2 Hw3) as [d [Hd Hs]].
      exists d. split; [exact Hd|]. rewrite Hs. reflexivity.
Qed.

Lemma getPromotionLabel_discount_range_witness :
  exists d : Z, (0 <= d <= 100)%Z
    /\ getPromotionLabel (mkProduct "p1" 100 (Some (mkPromotion PromoDiscount (Some 70)))
                            None None) = Some (Z_to_string d ++ "% OFF").
Proof.
  apply (getPromotionLabel_discount_range
           (mkProduct "p1" 100 (Some (mkPromotion PromoDiscount (Some 70))) None None)
           (mkPromotion PromoDiscount (Some 70)) 70
           (4925812092436480 # 70368744177664) (7036874417766400 # 70368744177664)
           eq_refl eq_refl eq_refl); vm_compute; first [reflexivity | discriminate].
Defined.

(* ------------------------------------------------------------------ *)
(** ** Loading the product grid *)

Lemma gp_id_attachPromotion (pps : list (string * option Promotion)) (gp : GridProduct) :
  gp_id (attachPromotion pps gp) = gp_id gp.
Proof.
  unfold attachPromotion. destruct (find _ pps) as [[? [pr|]]|]; reflexivity.
Qed.

Lemma gp_id_attachRating (m : list (string * (Q * Z))) (gp : GridProduct) :
  gp_id (attachRating m gp) = gp_id gp.
Proof.
  unfold attachRating. destruct (assoc_get _ m) as [[? ?]|]; reflexivity.
Qed.

(** The grid shows, in the order the [products] query returned them, exactly
    the products whose [allowed_payment_methods] is missing or allows cash on
    delivery or card, whatever the promotions and reviews queries return. *)
Theorem loadProducts_shown_ids (data : list GridProduct)
  (promos : option (list (string * option Promotion)))
  (reviews : option (list (string * Q))) :
  map gp_id (fst (loadProducts_client data promos reviews))
    = map gp_id (filter allowedByPaymentMethods data)
  /\ (forall gp, allowedByPaymentMethods gp = true <->
        gp_allowed_payment_methods gp = None
        \/ (exists m, gp_allowed_payment_methods gp = Some m
              /\ (pm_cash_on_delivery m = Some true \/ pm_card m = Some true))).
Proof.
  split.
  - unfold loadProducts_client; simpl.
    destruct promos as [pps|], reviews as [rs|];
      rewrite ?map_map; try reflexivity;
      apply map_ext; intros gp;
      rewrite ?gp_id_attachRating, ?gp_id_attachPromotion; reflexivity.
  - intros gp. unfold allowedByPaymentMethods, flag.
    destruct (gp_allowed_payment_methods gp) as [[c k]|]; simpl.
    + split.
      * intros H. right. exists (mkPaymentMethods c k). simpl.
        destruct c as [[]|], k as [[]|]; simpl in H; try discriminate; auto.
      * intros [H|[m [Hm [Hc|Hk]]]]; [discriminate|injection Hm as <-; simpl in *; subst..].
        -- reflexivity.
        -- destruct c as [[]|]; reflexivity.
    + split; [left; reflexivity|reflexivity].
Qed.

(** The promotions step gives a product the promotion of the first
    [promotion_products] row for its id when that row carries a promotion,
    and leaves it unchanged when that row has none (later rows for the same
    id are ignored) or when no row is for its id. *)
Theorem attachPromotion_first_row (pps pre post : list (string * option Promotion))
  (opr : option Promotion) (gp : GridProduct)
  (Hpps : pps = (pre ++ (gp_id gp, opr) :: post)%list)
  (Hpre : Forall (fun pp => fst pp <> gp_id gp) pre) :
  attachPromotion pps gp = match opr with Some pr => setPromotion pr gp | None => gp end
  /\ (forall qs, Forall (fun pp => fst pp <> gp_id gp) qs -> attachPromotion qs gp = gp).
Proof.
  assert (Hnone : forall qs : list (string * option Promotion),
            Forall (fun pp => fst pp <> gp_id gp) qs ->
            find (fun pp => String.eqb (fst pp) (gp_id gp)) qs = None).
  { induction qs as [|q qs IH]; intros H; [reflexivity|].
    inversion H as [|? ? Hq Hqs]; subst. simpl.
    apply String.eqb_neq in Hq. rewrite Hq. apply IH, Hqs. }
  split.
  - unfold attachPromotion. subst pps.
    assert (Hf : find (fun pp => String.eqb (fst pp) (gp_id gp)) (pre ++ (gp_id gp, opr) :: post)%list
                 = Some (gp_id gp, opr)).
    { induction pre as [|q pre IH]; simpl.
      - rewrite String.eqb_refl. reflexivity.
      - inversion Hpre as [|? ? Hq Hqs]; subst.
        apply String.eqb_neq in Hq. rewrite Hq. apply IH, Hqs. }
    rewrite Hf. destruct opr; reflexivity.
  - intros qs Hqs. unfold attachPromotion. rewrite (Hnone qs Hqs). reflexivity.
Qed.

Lemma attachPromotion_first_row_witness :
  let gp := mkGridProduct (mkProduct "p1" 10 None None None) None None None None in
  let pr := mkPromotion Promo2x1 None in
  attachPromotion [("p1", None); ("p1", Some pr)] gp = gp.
Proof.
  intros gp pr.
  exact (proj1 (attachPromotion_first_row [("p1", None); ("p1", Some pr)] [] [("p1", Some pr)]
                  None gp eq_refl (Forall_nil _))).
Defined.







(** The category list of the grid has no duplicates and holds exactly the
    non-empty categories of the fetched products, including products the
    payment-method filter keeps off the grid. *)
Theorem loadProducts_categories (data : list GridProduct)
  (promos : option (list (string * option Promotion)))
  (reviews : option (list (string * Q))) :
  let cats := snd (loadProducts_client data promos reviews) in
  NoDup cats
  /\ (forall c, In c cats <->
        exists gp, In gp data /\ gp_category gp = Some c /\ c <> EmptyString).
Proof.
  intros cats. unfold cats, loadProducts_client; simpl. rewrite uniqueValues_fold.
  split; [apply unique_fold_NoDup; constructor|].
  intros c. rewrite unique_fold_In, in_flat_map. simpl.
  split.
  - intros [[]|[gp [Hgp Hc]]]. exists gp. split; [exact Hgp|].
    unfold truthyCategory, str_truthy in Hc.
    destruct (gp_category gp) as [[|a t]|]; simpl in Hc; try contradiction.
    destruct Hc as [<-|[]]. split; [reflexivity|discriminate].
  - intros [gp [Hgp [Hc Hne]]]. right. exists gp. split; [exact Hgp|].
    unfold truthyCategory. rewrite Hc. destruct c; [contradiction|left; reflexivity].
Qed.

(* ------------------------------------------------------------------ *)
(** ** Stars *)

(** [renderStars] fills star [i] (of 1 to 5) exactly when
    [i <= Math.round(rating)]; so it fills [Math.round(rating)] stars,
    clamped to [0..5]. *)
Theorem filledStars_count (rating : Q) :
  (forall star, In star (filledStars rating) <->
     (1 <= star <= 5)%Z /\ (star <= js_round rating)%Z)
  /\ Z.of_nat (length (filledStars rating)) = Z.max 0 (Z.min 5 (js_round rating)).
Proof.
  unfold filledStars. set (r := js_round rating). split.
  - intros star. rewrite filter_In. simpl. rewrite Z.leb_le.
    split.
    + intros [H Hs]. split; [|exact Hs]. lia.
    + intros [H Hs]. split; [|exact Hs].
      lia.
  - simpl.
    destruct (Z.leb_spec 1 r), (Z.leb_spec 2 r), (Z.leb_spec 3 r), (Z.leb_spec 4 r),
             (Z.leb_spec 5 r); simpl; lia.
Qed.

(* ------------------------------------------------------------------ *)
(** ** Preview of a pending order's items *)

(** The pending-order card shows the first three items and, only when there
    are more, the text ["+<n> más"] with [n] the number of items not shown;
    with at most three items all of them are shown and there is no such
    text. An order without items shows nothing. *)
Theorem pendingPreview_counts (items : list OrderItem) :
  pendingPreviewItems None = [] /\ pendingPreviewMore None = None
  /\ length (pendingPreviewItems (Some items)) = Nat.min 3 (length items)
  /\ ((length items <= 3)%nat ->
        pendingPreviewItems (Some items) = items /\ pendingPreviewMore (Some items) = None)
  /\ ((3 < length items)%nat ->
        exists hidden, pendingPreviewMore (Some items)
                         = Some ("+" ++ Z_to_string (Z.of_nat (length hidden)) ++ " más")
          /\ (pendingPreviewItems (Some items) ++ hidden)%list = items).
Proof.
  unfold pendingPreviewItems, pendingPreviewMore.
  split; [reflexivity|split; [reflexivity|split; [|split]]].
  - apply length_firstn.
  - intros H. split; [apply firstn_all2, H|].
    replace (Z.ltb 3 (Z.of_nat (length items))) with false; [reflexivity|].
    symmetry. apply Z.ltb_ge. lia.
  - intros H. exists (skipn 3 items). split; [|apply firstn_skipn].
    replace (Z.ltb 3 (Z.of_nat (length items))) with true
      by (symmetry; apply Z.ltb_lt; lia).
    rewrite length_skipn, Nat2Z.inj_sub by lia. reflexivity.
Qed.

Lemma pendingPreview_counts_witness :
  let it := mkOrderItem 1 10 None (mkProduct "p1" 10 None None None) in
  pendingPreviewItems (Some [it; it]) = [it; it] /\ pendingPreviewMore (Some [it; it]) = None.
Proof.
  intros it. apply (proj1 (proj2 (proj2 (proj2 (pendingPreview_counts [it; it]))))).
  simpl. lia.
Defined.
